(** * Encryption properties of parquet/properties.h

    A shallow embedding of [ColumnEncryptionProperties],
    [FileEncryptionProperties] and [FileDecryptionProperties] from
    src/parquet/properties.h.  C++ strings (keys, key metadata, paths) are
    Rocq strings.  The [std::shared_ptr<EncryptionProperties>] objects live in
    an explicit heap, so that sharing the footer object can be told apart from
    allocating a fresh one.  Exceptions and debug-assertion aborts are
    outcomes of the [Result] type. *)

From Stdlib Require Import String Ascii ZArith Lia Bool.
From stdpp Require Import base gmap strings list.

Open Scope string_scope.

(** ** Outcomes *)

(** What a C++ call can end in: a value, a thrown exception, or a process
    abort raised by a failing [DCHECK] in a debug build. *)
Inductive Exn :=
| ParquetException (msg : string)
(** [std::map::at] on a missing key throws [std::out_of_range]. *)
| OutOfRange.

Inductive Result (A : Type) :=
| Ok (a : A)
| Throw (e : Exn)
| Abort.
Arguments Ok {A} a.
Arguments Throw {A} e.
Arguments Abort {A}.

Definition bind {A B} (r : Result A) (k : A -> Result B) : Result B :=
  match r with
  | Ok a => k a
  | Throw e => Throw e
  | Abort => Abort
  end.

Notation "'let!' x := r 'in' k" := (bind r (fun x => k))
  (at level 200, x name, r at level 100, k at level 200).

(** The build mode: [DCHECK] (parquet/util/logging.h) checks its condition
    and aborts in a debug build, and is compiled out when [NDEBUG] is set. *)
Inductive BuildMode := Debug | Release.

Definition DCHECK (mode : BuildMode) (cond : bool) : Result unit :=
  match mode with
  | Debug => if cond then Ok tt else Abort
  | Release => Ok tt
  end.

Definition is_empty (s : string) : bool :=
  match s with EmptyString => true | _ => false end.

(** [key.length() == 16 || key.length() == 24 || key.length() == 32] *)
Definition valid_key_length (key : string) : bool :=
  (String.length key =? 16)%nat || (String.length key =? 24)%nat
  || (String.length key =? 32)%nat.

(** ** ColumnEncryptionProperties *)

Record ColumnEncryptionProperties := {
  encrypt_ : bool;
  path_ : string;
  encrypted_with_footer_key_ : bool;
  key_ : string;
  key_metadata_ : string
}.

(** [ColumnEncryptionProperties(bool encrypt, std::string path)]: the key
    and key metadata strings are default-constructed (empty). *)
Definition mkColumnEncryptionProperties (encrypt : bool) (path : string)
  : ColumnEncryptionProperties :=
  {| encrypt_ := encrypt; path_ := path; encrypted_with_footer_key_ := encrypt;
     key_ := EmptyString; key_metadata_ := EmptyString |}.

(** [SetEncryptionKey(key, key_metadata)], a member function that mutates
    the object: the outcome of the call paired with the object's state after
    it.  Both checks throw before any field is assigned. *)
Definition SetEncryptionKey (c : ColumnEncryptionProperties) (key key_metadata : string)
  : Result unit * ColumnEncryptionProperties :=
  if negb (encrypt_ c) then
    (Throw (ParquetException ("Setting key on unencrypted column: " ++ path_ c)), c)
  else if is_empty key then
    (Throw (ParquetException ("Null key for " ++ path_ c)), c)
  else
    (Ok tt, {| encrypt_ := encrypt_ c; path_ := path_ c;
               encrypted_with_footer_key_ := false;
               key_ := key; key_metadata_ := key_metadata |}).

(** [std::string(reinterpret_cast<char*>(&key_id), 4)]: the four bytes of the
    [uint32_t] in memory order, which depends on the target's byte order. *)
Inductive Endianness := LittleEndian | BigEndian.

Definition byte_of (id : Z) (i : Z) : ascii :=
  ascii_of_N (Z.to_N (Z.land (Z.shiftr id (8 * i)) 255)).

Definition u32_bytes (e : Endianness) (id : Z) : string :=
  let bs := match e with
            | LittleEndian => [byte_of id 0; byte_of id 1; byte_of id 2; byte_of id 3]
            | BigEndian => [byte_of id 3; byte_of id 2; byte_of id 1; byte_of id 0]
            end in
  string_of_list_ascii bs.

(** [SetEncryptionKey(key, uint32_t key_id = 0)]; [key_id] is a [uint32_t]. *)
Definition SetEncryptionKeyId (e : Endianness) (c : ColumnEncryptionProperties)
  (key : string) (key_id : Z) : Result unit * ColumnEncryptionProperties :=
  let key_metadata := if Z.eqb key_id 0 then EmptyString else u32_bytes e key_id in
  SetEncryptionKey c key key_metadata.

(** ** EncryptionProperties and the shared-pointer heap *)

(** [Encryption::type] of parquet/types.h. *)
Inductive EncryptionType := AES_GCM_V1 | AES_GCM_CTR_V1.

(** Modelled from the spec: [EncryptionProperties] (parquet/encryption.h,
    not under src/) is the key-material value of section 3 of the spec,
    {algorithm, key, key_metadata, aad}, built by
    [EncryptionProperties(algorithm, key, key_metadata, aad = empty)] and
    read through its accessors. *)
Record EncryptionProperties := {
  algorithm : EncryptionType;
  ep_key : string;
  ep_key_metadata : string;
  ep_aad : string
}.

(** The objects owned through [std::shared_ptr<EncryptionProperties>]:
    a pointer is an address in [objs]; [next_ptr] is the next free one. *)
Record Heap := {
  objs : gmap nat EncryptionProperties;
  next_ptr : nat
}.

Definition heap_wf (h : Heap) : Prop :=
  forall p, is_Some (objs h !! p) -> (p < next_ptr h)%nat.

(** [std::make_shared<EncryptionProperties>(...)] / [new EncryptionProperties]. *)
Definition alloc (h : Heap) (v : EncryptionProperties) : nat * Heap :=
  (next_ptr h, {| objs := <[next_ptr h := v]> (objs h); next_ptr := S (next_ptr h) |}).

(** ** FileEncryptionProperties *)

Record FileEncryptionProperties := {
  footer_encryption_ : nat;
  uniform_encryption_ : bool;
  columns_ : list ColumnEncryptionProperties;
  encrypt_the_rest_ : bool
}.

Definition set_columns (f : FileEncryptionProperties)
  (cols : list ColumnEncryptionProperties) (rest : bool) : FileEncryptionProperties :=
  {| footer_encryption_ := footer_encryption_ f;
     uniform_encryption_ := uniform_encryption_ f;
     columns_ := cols; encrypt_the_rest_ := rest |}.

Definition set_uniform (f : FileEncryptionProperties) (u : bool)
  : FileEncryptionProperties :=
  {| footer_encryption_ := footer_encryption_ f; uniform_encryption_ := u;
     columns_ := columns_ f; encrypt_the_rest_ := encrypt_the_rest_ f |}.

(** [FileEncryptionProperties(algorithm, key, key_metadata)].  The members
    [columns_] and [encrypt_the_rest_] are not initialised by this
    constructor: [columns_] is an empty vector and [encrypt_the_rest_] holds
    an indeterminate value, the parameter [indeterminate]. *)
Definition FileEncryptionProperties_new (mode : BuildMode) (h : Heap)
  (alg : EncryptionType) (key key_metadata : string) (indeterminate : bool)
  : Result (FileEncryptionProperties * Heap) :=
  let! _ := DCHECK mode (valid_key_length key) in
  let! _ := (if negb (is_empty key_metadata)
             then DCHECK mode (String.length key_metadata <=? 256)%nat
             else Ok tt) in
  let (p, h') := alloc h {| algorithm := alg; ep_key := key;
                            ep_key_metadata := key_metadata; ep_aad := EmptyString |} in
  Ok ({| footer_encryption_ := p; uniform_encryption_ := negb (is_empty key);
         columns_ := []; encrypt_the_rest_ := indeterminate |}, h').

(** The loop of [SetupColumns] for a non-empty footer key: starting from
    [uniform_encryption_ = true], the first column whose key compares
    unequal to the footer key sets it to false and breaks. *)
Fixpoint uniform_scan (footer_key : string) (cols : list ColumnEncryptionProperties)
  : bool :=
  match cols with
  | [] => true
  | col :: rest =>
      if String.eqb (key_ col) footer_key then uniform_scan footer_key rest else false
  end.

(** The loop of [SetupColumns] for an empty footer key, threading
    [all_are_unencrypted]. *)
Fixpoint null_footer_scan (cols : list ColumnEncryptionProperties)
  (all_are_unencrypted : bool) : Result bool :=
  match cols with
  | [] => Ok all_are_unencrypted
  | col :: rest =>
      if encrypt_ col then
        if is_empty (key_ col) then
          Throw (ParquetException "Encrypt column with null footer key")
        else null_footer_scan rest false
      else null_footer_scan rest all_are_unencrypted
  end.

(** [SetupColumns(columns, encrypt_the_rest)]: the outcome and the object's
    state after the call ([encrypt_the_rest_] and [columns_] are assigned
    first, so they are set even when the call throws).  A null or dangling
    [footer_encryption_] (a default-constructed object) is undefined
    behaviour, modelled as [Abort]. *)
Definition SetupColumns (h : Heap) (f : FileEncryptionProperties)
  (columns : list ColumnEncryptionProperties) (encrypt_the_rest : bool)
  : Result unit * FileEncryptionProperties :=
  let f1 := set_columns f columns encrypt_the_rest in
  match objs h !! footer_encryption_ f1 with
  | None => (Abort, f1)
  | Some footer =>
      if negb (is_empty (ep_key footer)) then
        (Ok tt, set_uniform f1 (uniform_scan (ep_key footer) columns))
      else if encrypt_the_rest then
        (Throw (ParquetException "Encrypt the rest with null footer key"), f1)
      else
        match null_footer_scan columns true with
        | Ok true => (Throw (ParquetException "Footer and all columns unencrypted"), f1)
        | Ok false => (Ok tt, f1)
        | Throw e => (Throw e, f1)
        | Abort => (Abort, f1)
        end
  end.

(** The first element of [columns_] whose path equals [path_str]. *)
Definition find_column (f : FileEncryptionProperties) (path_str : string)
  : option ColumnEncryptionProperties :=
  find (fun col => String.eqb (path_ col) path_str) (columns_ f).

(** [GetColumnCryptoMetaData(path)], [path] being [path->ToDotString()].
    The object returned is described by its value; for a listed column it is
    the element of [columns_] itself. *)
Definition GetColumnCryptoMetaData (f : FileEncryptionProperties) (path : string)
  : ColumnEncryptionProperties :=
  if uniform_encryption_ f then mkColumnEncryptionProperties true path
  else match find_column f path with
       | Some col => col
       | None =>
           if encrypt_the_rest_ f then mkColumnEncryptionProperties true path
           else mkColumnEncryptionProperties false path
       end.

(** [GetColumnEncryptionProperties(path)]: the returned [shared_ptr]
    ([None] is [nullptr]) and the heap after the call. *)
Definition GetColumnEncryptionProperties (h : Heap) (f : FileEncryptionProperties)
  (path : string) : Result (option nat * Heap) :=
  if uniform_encryption_ f then Ok (Some (footer_encryption_ f), h)
  else match find_column f path with
       | Some col =>
           match objs h !! footer_encryption_ f with
           | None => Abort
           | Some footer =>
               let (p, h') := alloc h {| algorithm := algorithm footer;
                                         ep_key := key_ col;
                                         ep_key_metadata := key_metadata_ col;
                                         ep_aad := ep_aad footer |} in
               Ok (Some p, h')
           end
       | None =>
           if encrypt_the_rest_ f then Ok (Some (footer_encryption_ f), h)
           else Ok (None, h)
       end.

(** ** FileDecryptionProperties *)

(** Modelled from the spec: [DecryptionKeyRetriever] (parquet/encryption.h,
    not under src/) is the KeyRetriever capability of section 6 of the spec,
    [GetKey(metadata)] returning the secret key or failing; a retriever is
    the function computing that outcome. *)
Definition DecryptionKeyRetriever := string -> Result string.

(** Modelled from the spec: [schema::ColumnPath(paths).ToDotString()]
    (parquet/schema.h, not under src/) is the canonical dotted form of the
    path, its segments joined by ".". *)
Fixpoint ToDotString (paths : list string) : string :=
  match paths with
  | [] => EmptyString
  | [p] => p
  | p :: rest => p ++ "." ++ ToDotString rest
  end.

Record FileDecryptionProperties := {
  footer_key_ : string;
  aad_ : string;
  column_keys_ : gmap string string;
  (** [None] is a null [std::shared_ptr<DecryptionKeyRetriever>]. *)
  key_retriever_ : option DecryptionKeyRetriever
}.

(** [FileDecryptionProperties(const std::string& footer_key)]. *)
Definition FileDecryptionProperties_of_key (mode : BuildMode) (footer_key : string)
  : Result FileDecryptionProperties :=
  let! _ := DCHECK mode (valid_key_length footer_key) in
  Ok {| footer_key_ := footer_key; aad_ := EmptyString; column_keys_ := ∅;
        key_retriever_ := None |}.

(** [FileDecryptionProperties(key_retriever)]. *)
Definition FileDecryptionProperties_of_retriever
  (key_retriever : option DecryptionKeyRetriever) : FileDecryptionProperties :=
  {| footer_key_ := EmptyString; aad_ := EmptyString; column_keys_ := ∅;
     key_retriever_ := key_retriever |}.

(** [SetColumnKey(const std::vector<std::string>& paths, key)]. *)
Definition SetColumnKeyPaths (mode : BuildMode) (d : FileDecryptionProperties)
  (paths : list string) (key : string) : Result FileDecryptionProperties :=
  let! _ := DCHECK mode (valid_key_length key) in
  Ok {| footer_key_ := footer_key_ d; aad_ := aad_ d;
        column_keys_ := <[ToDotString paths := key]> (column_keys_ d);
        key_retriever_ := key_retriever_ d |}.

(** [SetColumnKey(const std::string& name, key)]. *)
Definition SetColumnKey (mode : BuildMode) (d : FileDecryptionProperties)
  (name key : string) : Result FileDecryptionProperties :=
  SetColumnKeyPaths mode d [name] key.

(** [GetColumnKey(columnPath, key_metadata)], [columnPath] given by its
    dotted string. *)
Definition GetColumnKey (d : FileDecryptionProperties) (path key_metadata : string)
  : Result string :=
  if is_empty key_metadata then
    match column_keys_ d !! path with
    | Some k => Ok k
    | None => Throw OutOfRange
    end
  else match key_retriever_ d with
       | None => Throw (ParquetException
                          "no key retriever is provided for column key metadata")
       | Some r => r key_metadata
       end.

(** [GetFooterKey(footer_key_metadata)]. *)
Definition GetFooterKey (d : FileDecryptionProperties) (footer_key_metadata : string)
  : Result string :=
  if is_empty footer_key_metadata then Ok (footer_key_ d)
  else match key_retriever_ d with
       | None => Throw (ParquetException
                          "no key retriever is provided for footer key metadata")
       | Some r => r footer_key_metadata
       end.

(** [SetAad(aad)]. *)
Definition SetAad (d : FileDecryptionProperties) (aad : string) : FileDecryptionProperties :=
  {| footer_key_ := footer_key_ d; aad_ := aad; column_keys_ := column_keys_ d;
     key_retriever_ := key_retriever_ d |}.

(** [GetAad()]. *)
Definition GetAad (d : FileDecryptionProperties) : string := aad_ d.

(** ** SetupAad and the int key-id constructor *)

(** Modelled from the spec: the setter [EncryptionProperties::aad(aad)]
    (parquet/encryption.h, not under src/) replaces the AAD of the object in
    place, as [SetAad] of section 4.2 of the spec describes. *)
Definition set_aad (ep : EncryptionProperties) (aad : string) : EncryptionProperties :=
  {| algorithm := algorithm ep; ep_key := ep_key ep;
     ep_key_metadata := ep_key_metadata ep; ep_aad := aad |}.

(** [SetupAad(aad)]: [footer_encryption_->aad(aad)] updates the shared
    footer object in place. *)
Definition SetupAad (h : Heap) (f : FileEncryptionProperties) (aad : string)
  : Result Heap :=
  match objs h !! footer_encryption_ f with
  | None => Abort
  | Some fe => Ok {| objs := <[footer_encryption_ f := set_aad fe aad]> (objs h);
                     next_ptr := next_ptr h |}
  end.

(** The implicit conversion of a [uint32_t] argument to an [int] parameter
    (two's complement wrap-around). *)
Definition to_int32 (v : Z) : Z := if Z.ltb v (2 ^ 31)%Z then v else (v - 2 ^ 32)%Z.

(** [FileEncryptionProperties(algorithm, key, int key_id)]: delegates with
    the four bytes of the [int] as key metadata, or none when it is 0. *)
Definition FileEncryptionProperties_new_id (mode : BuildMode) (h : Heap)
  (alg : EncryptionType) (key : string) (key_id : Z) (e : Endianness)
  (indeterminate : bool) : Result (FileEncryptionProperties * Heap) :=
  FileEncryptionProperties_new mode h alg key
    (if Z.eqb key_id 0 then EmptyString else u32_bytes e key_id) indeterminate.

(** ** ColumnProperties *)

(** [Encoding::type] and [Compression::type] of parquet/types.h (not under
    src/): the enumerators of the Parquet format. *)
Inductive Encoding :=
| PLAIN | PLAIN_DICTIONARY | RLE | BIT_PACKED | DELTA_BINARY_PACKED
| DELTA_LENGTH_BYTE_ARRAY | DELTA_BYTE_ARRAY | RLE_DICTIONARY | UNKNOWN.

Inductive Compression := UNCOMPRESSED | SNAPPY | GZIP | LZO | BROTLI | LZ4 | ZSTD.

Inductive ParquetVersion := PARQUET_1_0 | PARQUET_2_0.

Definition DEFAULT_PAGE_SIZE : Z := 1024 * 1024.
Definition DEFAULT_IS_DICTIONARY_ENABLED : bool := true.
Definition DEFAULT_DICTIONARY_PAGE_SIZE_LIMIT : Z := DEFAULT_PAGE_SIZE.
Definition DEFAULT_WRITE_BATCH_SIZE : Z := 1024.
Definition DEFAULT_MAX_ROW_GROUP_LENGTH : Z := 64 * 1024 * 1024.
Definition DEFAULT_ARE_STATISTICS_ENABLED : bool := true.
Definition DEFAULT_MAX_STATISTICS_SIZE : nat := 4096.
Definition DEFAULT_ENCODING : Encoding := PLAIN.
Definition DEFAULT_WRITER_VERSION : ParquetVersion := PARQUET_1_0.
Definition DEFAULT_COMPRESSION_TYPE : Compression := UNCOMPRESSED.

Record ColumnProperties := {
  encoding_ : Encoding;
  codec_ : Compression;
  dictionary_enabled_ : bool;
  statistics_enabled_ : bool;
  max_stats_size_ : nat;
  encryption_ : EncryptionProperties
}.

(** [ColumnProperties()] with its default arguments; [DEFAULT_ENCRYPTION],
    a default-constructed [EncryptionProperties], is the argument
    [default_encryption]. *)
Definition ColumnProperties_new (default_encryption : EncryptionProperties)
  : ColumnProperties :=
  {| encoding_ := DEFAULT_ENCODING; codec_ := DEFAULT_COMPRESSION_TYPE;
     dictionary_enabled_ := DEFAULT_IS_DICTIONARY_ENABLED;
     statistics_enabled_ := DEFAULT_ARE_STATISTICS_ENABLED;
     max_stats_size_ := DEFAULT_MAX_STATISTICS_SIZE;
     encryption_ := default_encryption |}.

Definition set_encoding (c : ColumnProperties) (v : Encoding) : ColumnProperties :=
  {| encoding_ := v; codec_ := codec_ c; dictionary_enabled_ := dictionary_enabled_ c;
     statistics_enabled_ := statistics_enabled_ c; max_stats_size_ := max_stats_size_ c;
     encryption_ := encryption_ c |}.

Definition set_compression (c : ColumnProperties) (v : Compression) : ColumnProperties :=
  {| encoding_ := encoding_ c; codec_ := v; dictionary_enabled_ := dictionary_enabled_ c;
     statistics_enabled_ := statistics_enabled_ c; max_stats_size_ := max_stats_size_ c;
     encryption_ := encryption_ c |}.

Definition set_dictionary_enabled (c : ColumnProperties) (v : bool) : ColumnProperties :=
  {| encoding_ := encoding_ c; codec_ := codec_ c; dictionary_enabled_ := v;
     statistics_enabled_ := statistics_enabled_ c; max_stats_size_ := max_stats_size_ c;
     encryption_ := encryption_ c |}.

Definition set_statistics_enabled (c : ColumnProperties) (v : bool) : ColumnProperties :=
  {| encoding_ := encoding_ c; codec_ := codec_ c; dictionary_enabled_ := dictionary_enabled_ c;
     statistics_enabled_ := v; max_stats_size_ := max_stats_size_ c;
     encryption_ := encryption_ c |}.

Definition set_max_statistics_size (c : ColumnProperties) (v : nat) : ColumnProperties :=
  {| encoding_ := encoding_ c; codec_ := codec_ c; dictionary_enabled_ := dictionary_enabled_ c;
     statistics_enabled_ := statistics_enabled_ c; max_stats_size_ := v;
     encryption_ := encryption_ c |}.

(** ** WriterProperties *)

Module WriterProperties.

Record t := {
  (** [::arrow::MemoryPool*], an opaque address. *)
  pool_ : nat;
  dictionary_pagesize_limit_ : Z;
  write_batch_size_ : Z;
  max_row_group_length_ : Z;
  pagesize_ : Z;
  parquet_version_ : ParquetVersion;
  parquet_created_by_ : string;
  (** [None] is a null [std::shared_ptr<FileEncryptionProperties>]. *)
  parquet_file_encryption_ : option FileEncryptionProperties;
  default_column_properties_ : ColumnProperties;
  column_properties_ : gmap string ColumnProperties
}.

(** [column_properties(path)], [path] given by its dotted string. *)
Definition column_properties (w : t) (path : string) : ColumnProperties :=
  match column_properties_ w !! path with
  | Some c => c
  | None => default_column_properties_ w
  end.

Definition encoding (w : t) (path : string) : Encoding :=
  encoding_ (column_properties w path).
Definition compression (w : t) (path : string) : Compression :=
  codec_ (column_properties w path).
Definition dictionary_enabled (w : t) (path : string) : bool :=
  dictionary_enabled_ (column_properties w path).
Definition statistics_enabled (w : t) (path : string) : bool :=
  statistics_enabled_ (column_properties w path).
Definition max_statistics_size (w : t) (path : string) : nat :=
  max_stats_size_ (column_properties w path).

Definition dictionary_index_encoding (w : t) : Encoding :=
  match parquet_version_ w with
  | PARQUET_1_0 => PLAIN_DICTIONARY
  | PARQUET_2_0 => RLE_DICTIONARY
  end.

Definition dictionary_page_encoding (w : t) : Encoding :=
  match parquet_version_ w with
  | PARQUET_1_0 => PLAIN_DICTIONARY
  | PARQUET_2_0 => PLAIN
  end.

(** [footer_encryption()]: the footer pointer, or [nullptr]. *)
Definition footer_encryption (w : t) : option nat :=
  match parquet_file_encryption_ w with
  | None => None
  | Some f => Some (footer_encryption_ f)
  end.

(** [column_encryption_props(path)]: [None] is [nullptr]. *)
Definition column_encryption_props (w : t) (path : string)
  : option ColumnEncryptionProperties :=
  match parquet_file_encryption_ w with
  | None => None
  | Some f => Some (GetColumnCryptoMetaData f path)
  end.

(** [encryption(path)]. *)
Definition encryption (h : Heap) (w : t) (path : string) : Result (option nat * Heap) :=
  match parquet_file_encryption_ w with
  | None => Ok (None, h)
  | Some f => GetColumnEncryptionProperties h f path
  end.

End WriterProperties.

(** ** WriterProperties::Builder *)

(** What the model leaves open about the platform: the build mode, the byte
    order, the indeterminate value of an uninitialised [bool] member, and
    the values of [::arrow::default_memory_pool()], [DEFAULT_CREATED_BY]
    (parquet_version.h) and [DEFAULT_ENCRYPTION] (a default-constructed
    [EncryptionProperties]), none of which is under src/. *)
Record Platform := {
  build_mode : BuildMode;
  endianness : Endianness;
  indeterminate_bool : bool;
  default_memory_pool : nat;
  DEFAULT_CREATED_BY : string;
  DEFAULT_ENCRYPTION : EncryptionProperties
}.

Module Builder.

Record t := {
  pool_ : nat;
  dictionary_pagesize_limit_ : Z;
  write_batch_size_ : Z;
  max_row_group_length_ : Z;
  pagesize_ : Z;
  version_ : ParquetVersion;
  created_by_ : string;
  (** [None] is a null [std::unique_ptr<FileEncryptionProperties>]. *)
  file_encryption_ : option FileEncryptionProperties;
  default_column_properties_ : ColumnProperties;
  encodings_ : gmap string Encoding;
  codecs_ : gmap string Compression;
  dictionary_enabled_ : gmap string bool;
  statistics_enabled_ : gmap string bool
}.

(** [Builder()]. *)
Definition new (pf : Platform) : t :=
  {| pool_ := default_memory_pool pf;
     dictionary_pagesize_limit_ := DEFAULT_DICTIONARY_PAGE_SIZE_LIMIT;
     write_batch_size_ := DEFAULT_WRITE_BATCH_SIZE;
     max_row_group_length_ := DEFAULT_MAX_ROW_GROUP_LENGTH;
     pagesize_ := DEFAULT_PAGE_SIZE; version_ := DEFAULT_WRITER_VERSION;
     created_by_ := DEFAULT_CREATED_BY pf; file_encryption_ := None;
     default_column_properties_ := ColumnProperties_new (DEFAULT_ENCRYPTION pf);
     encodings_ := ∅; codecs_ := ∅; dictionary_enabled_ := ∅;
     statistics_enabled_ := ∅ |}.

Definition set_pool (b : t) (v : nat) : t :=
  {| pool_ := v; dictionary_pagesize_limit_ := dictionary_pagesize_limit_ b;
     write_batch_size_ := write_batch_size_ b; max_row_group_length_ :=
     max_row_group_length_ b; pagesize_ := pagesize_ b; version_ := version_ b;
     created_by_ := created_by_ b; file_encryption_ := file_encryption_ b;
     default_column_properties_ := default_column_properties_ b; encodings_ :=
     encodings_ b; codecs_ := codecs_ b; dictionary_enabled_ := dictionary_enabled_ b;
     statistics_enabled_ := statistics_enabled_ b |}.

Definition set_dictionary_pagesize_limit (b : t) (v : Z) : t :=
  {| pool_ := pool_ b; dictionary_pagesize_limit_ := v; write_batch_size_ :=
     write_batch_size_ b; max_row_group_length_ := max_row_group_length_ b; pagesize_
     := pagesize_ b; version_ := version_ b; created_by_ := created_by_ b;
     file_encryption_ := file_encryption_ b; default_column_properties_ :=
     default_column_properties_ b; encodings_ := encodings_ b; codecs_ := codecs_ b;
     dictionary_enabled_ := dictionary_enabled_ b; statistics_enabled_ :=
     statistics_enabled_ b |}.

Definition set_write_batch_size (b : t) (v : Z) : t :=
  {| pool_ := pool_ b; dictionary_pagesize_limit_ := dictionary_pagesize_limit_ b;
     write_batch_size_ := v; max_row_group_length_ := max_row_group_length_ b;
     pagesize_ := pagesize_ b; version_ := version_ b; created_by_ := created_by_ b;
     file_encryption_ := file_encryption_ b; default_column_properties_ :=
     default_column_properties_ b; encodings_ := encodings_ b; codecs_ := codecs_ b;
     dictionary_enabled_ := dictionary_enabled_ b; statistics_enabled_ :=
     statistics_enabled_ b |}.

Definition set_max_row_group_length (b : t) (v : Z) : t :=
  {| pool_ := pool_ b; dictionary_pagesize_limit_ := dictionary_pagesize_limit_ b;
     write_batch_size_ := write_batch_size_ b; max_row_group_length_ := v; pagesize_
     := pagesize_ b; version_ := version_ b; created_by_ := created_by_ b;
     file_encryption_ := file_encryption_ b; default_column_properties_ :=
     default_column_properties_ b; encodings_ := encodings_ b; codecs_ := codecs_ b;
     dictionary_enabled_ := dictionary_enabled_ b; statistics_enabled_ :=
     statistics_enabled_ b |}.

Definition set_pagesize (b : t) (v : Z) : t :=
  {| pool_ := pool_ b; dictionary_pagesize_limit_ := dictionary_pagesize_limit_ b;
     write_batch_size_ := write_batch_size_ b; max_row_group_length_ :=
     max_row_group_length_ b; pagesize_ := v; version_ := version_ b; created_by_ :=
     created_by_ b; file_encryption_ := file_encryption_ b; default_column_properties_
     := default_column_properties_ b; encodings_ := encodings_ b; codecs_ := codecs_
     b; dictionary_enabled_ := dictionary_enabled_ b; statistics_enabled_ :=
     statistics_enabled_ b |}.

Definition set_version (b : t) (v : ParquetVersion) : t :=
  {| pool_ := pool_ b; dictionary_pagesize_limit_ := dictionary_pagesize_limit_ b;
     write_batch_size_ := write_batch_size_ b; max_row_group_length_ :=
     max_row_group_length_ b; pagesize_ := pagesize_ b; version_ := v; created_by_ :=
     created_by_ b; file_encryption_ := file_encryption_ b; default_column_properties_
     := default_column_properties_ b; encodings_ := encodings_ b; codecs_ := codecs_
     b; dictionary_enabled_ := dictionary_enabled_ b; statistics_enabled_ :=
     statistics_enabled_ b |}.

Definition set_created_by (b : t) (v : string) : t :=
  {| pool_ := pool_ b; dictionary_pagesize_limit_ := dictionary_pagesize_limit_ b;
     write_batch_size_ := write_batch_size_ b; max_row_group_length_ :=
     max_row_group_length_ b; pagesize_ := pagesize_ b; version_ := version_ b;
     created_by_ := v; file_encryption_ := file_encryption_ b;
     default_column_properties_ := default_column_properties_ b; encodings_ :=
     encodings_ b; codecs_ := codecs_ b; dictionary_enabled_ := dictionary_enabled_ b;
     statistics_enabled_ := statistics_enabled_ b |}.

Definition set_file_encryption (b : t) (v : option FileEncryptionProperties) : t :=
  {| pool_ := pool_ b; dictionary_pagesize_limit_ := dictionary_pagesize_limit_ b;
     write_batch_size_ := write_batch_size_ b; max_row_group_length_ :=
     max_row_group_length_ b; pagesize_ := pagesize_ b; version_ := version_ b;
     created_by_ := created_by_ b; file_encryption_ := v; default_column_properties_
     := default_column_properties_ b; encodings_ := encodings_ b; codecs_ := codecs_
     b; dictionary_enabled_ := dictionary_enabled_ b; statistics_enabled_ :=
     statistics_enabled_ b |}.

Definition set_default_column_properties (b : t) (v : ColumnProperties) : t :=
  {| pool_ := pool_ b; dictionary_pagesize_limit_ := dictionary_pagesize_limit_ b;
     write_batch_size_ := write_batch_size_ b; max_row_group_length_ :=
     max_row_group_length_ b; pagesize_ := pagesize_ b; version_ := version_ b;
     created_by_ := created_by_ b; file_encryption_ := file_encryption_ b;
     default_column_properties_ := v; encodings_ := encodings_ b; codecs_ := codecs_
     b; dictionary_enabled_ := dictionary_enabled_ b; statistics_enabled_ :=
     statistics_enabled_ b |}.

Definition set_encodings (b : t) (v : gmap string Encoding) : t :=
  {| pool_ := pool_ b; dictionary_pagesize_limit_ := dictionary_pagesize_limit_ b;
     write_batch_size_ := write_batch_size_ b; max_row_group_length_ :=
     max_row_group_length_ b; pagesize_ := pagesize_ b; version_ := version_ b;
     created_by_ := created_by_ b; file_encryption_ := file_encryption_ b;
     default_column_properties_ := default_column_properties_ b; encodings_ := v;
     codecs_ := codecs_ b; dictionary_enabled_ := dictionary_enabled_ b;
     statistics_enabled_ := statistics_enabled_ b |}.

Definition set_codecs (b : t) (v : gmap string Compression) : t :=
  {| pool_ := pool_ b; dictionary_pagesize_limit_ := dictionary_pagesize_limit_ b;
     write_batch_size_ := write_batch_size_ b; max_row_group_length_ :=
     max_row_group_length_ b; pagesize_ := pagesize_ b; version_ := version_ b;
     created_by_ := created_by_ b; file_encryption_ := file_encryption_ b;
     default_column_properties_ := default_column_properties_ b; encodings_ :=
     encodings_ b; codecs_ := v; dictionary_enabled_ := dictionary_enabled_ b;
     statistics_enabled_ := statistics_enabled_ b |}.

Definition set_dictionary_enabled_map (b : t) (v : gmap string bool) : t :=
  {| pool_ := pool_ b; dictionary_pagesize_limit_ := dictionary_pagesize_limit_ b;
     write_batch_size_ := write_batch_size_ b; max_row_group_length_ :=
     max_row_group_length_ b; pagesize_ := pagesize_ b; version_ := version_ b;
     created_by_ := created_by_ b; file_encryption_ := file_encryption_ b;
     default_column_properties_ := default_column_properties_ b; encodings_ :=
     encodings_ b; codecs_ := codecs_ b; dictionary_enabled_ := v; statistics_enabled_
     := statistics_enabled_ b |}.

Definition set_statistics_enabled_map (b : t) (v : gmap string bool) : t :=
  {| pool_ := pool_ b; dictionary_pagesize_limit_ := dictionary_pagesize_limit_ b;
     write_batch_size_ := write_batch_size_ b; max_row_group_length_ :=
     max_row_group_length_ b; pagesize_ := pagesize_ b; version_ := version_ b;
     created_by_ := created_by_ b; file_encryption_ := file_encryption_ b;
     default_column_properties_ := default_column_properties_ b; encodings_ :=
     encodings_ b; codecs_ := codecs_ b; dictionary_enabled_ := dictionary_enabled_ b;
     statistics_enabled_ := v |}.

(** The calls of the builder's interface.  The overloads taking a
    [schema::ColumnPath] call the [std::string] ones with
    [path->ToDotString()]; [encryption(key)], [encryption(key, uint32_t)]
    and [encryption(key, std::string)] call the three-argument ones with
    [Encryption::AES_GCM_V1] (and key id 0 for the first). *)
Inductive Op :=
| memory_pool (pool : nat)
| enable_dictionary
| disable_dictionary
| enable_dictionary_path (path : string)
| disable_dictionary_path (path : string)
| dictionary_pagesize_limit (v : Z)
| write_batch_size (v : Z)
| max_row_group_length (v : Z)
| data_pagesize (v : Z)
| version (v : ParquetVersion)
| created_by (v : string)
| encoding (enc : Encoding)
| encoding_path (path : string) (enc : Encoding)
| compression (codec : Compression)
| max_statistics_size (v : nat)
| compression_path (path : string) (codec : Compression)
(** [encryption(algorithm, key, uint32_t key_id)] *)
| encryption_id (alg : EncryptionType) (key : string) (key_id : Z)
(** [encryption(algorithm, key, const std::string& key_id)] *)
| encryption_md (alg : EncryptionType) (key : string) (key_id : string)
| column_encryption (columns : list ColumnEncryptionProperties) (encrypt_the_rest : bool)
| enable_statistics
| disable_statistics
| enable_statistics_path (path : string)
| disable_statistics_path (path : string).

Definition is_dictionary_encoding (enc : Encoding) : bool :=
  match enc with PLAIN_DICTIONARY | RLE_DICTIONARY => true | _ => false end.

Definition ok (b : t) (h : Heap) : Result unit * (t * Heap) := (Ok tt, (b, h)).

(** Installing a newly constructed [FileEncryptionProperties]
    ([file_encryption_.reset(new ...)]). *)
Definition install (b : t) (h : Heap) (r : Result (FileEncryptionProperties * Heap))
  : Result unit * (t * Heap) :=
  match r with
  | Ok (f, h') => (Ok tt, (set_file_encryption b (Some f), h'))
  | Throw e => (Throw e, (b, h))
  | Abort => (Abort, (b, h))
  end.

(** One call on the builder: its outcome and the builder and heap after it. *)
Definition step (pf : Platform) (op : Op) (st : t * Heap) : Result unit * (t * Heap) :=
  let (b, h) := st in
  let d := default_column_properties_ b in
  match op with
  | memory_pool p => ok (set_pool b p) h
  | enable_dictionary => ok (set_default_column_properties b (set_dictionary_enabled d true)) h
  | disable_dictionary => ok (set_default_column_properties b (set_dictionary_enabled d false)) h
  | enable_dictionary_path path =>
      ok (set_dictionary_enabled_map b (<[path := true]> (dictionary_enabled_ b))) h
  | disable_dictionary_path path =>
      ok (set_dictionary_enabled_map b (<[path := false]> (dictionary_enabled_ b))) h
  | dictionary_pagesize_limit v => ok (set_dictionary_pagesize_limit b v) h
  | write_batch_size v => ok (set_write_batch_size b v) h
  | max_row_group_length v => ok (set_max_row_group_length b v) h
  | data_pagesize v => ok (set_pagesize b v) h
  | version v => ok (set_version b v) h
  | created_by v => ok (set_created_by b v) h
  | encoding enc =>
      if is_dictionary_encoding enc then
        (Throw (ParquetException "Can't use dictionary encoding as fallback encoding"), (b, h))
      else ok (set_default_column_properties b (set_encoding d enc)) h
  | encoding_path path enc =>
      if is_dictionary_encoding enc then
        (Throw (ParquetException "Can't use dictionary encoding as fallback encoding"), (b, h))
      else ok (set_encodings b (<[path := enc]> (encodings_ b))) h
  | compression codec => ok (set_default_column_properties b (set_compression d codec)) h
  | max_statistics_size v =>
      ok (set_default_column_properties b (set_max_statistics_size d v)) h
  | compression_path path codec => ok (set_codecs b (<[path := codec]> (codecs_ b))) h
  | encryption_id alg key key_id =>
      install b h (FileEncryptionProperties_new_id (build_mode pf) h alg key
                     (to_int32 key_id) (endianness pf) (indeterminate_bool pf))
  | encryption_md alg key key_id =>
      install b h (FileEncryptionProperties_new (build_mode pf) h alg key key_id
                     (indeterminate_bool pf))
  | column_encryption columns encrypt_the_rest =>
      match file_encryption_ b with
      | None => (Throw (ParquetException "null file encryption"), (b, h))
      | Some f =>
          let (r, f') := SetupColumns h f columns encrypt_the_rest in
          (r, (set_file_encryption b (Some f'), h))
      end
  | enable_statistics => ok (set_default_column_properties b (set_statistics_enabled d true)) h
  | disable_statistics => ok (set_default_column_properties b (set_statistics_enabled d false)) h
  | enable_statistics_path path =>
      ok (set_statistics_enabled_map b (<[path := true]> (statistics_enabled_ b))) h
  | disable_statistics_path path =>
      ok (set_statistics_enabled_map b (<[path := false]> (statistics_enabled_ b))) h
  end.

(** A sequence of calls; a caller may catch an exception and go on. *)
Fixpoint run (pf : Platform) (ops : list Op) (st : t * Heap) : t * Heap :=
  match ops with
  | [] => st
  | op :: rest => run pf rest (snd (step pf op st))
  end.

(** The lambda [get] of [build()]: the entry of [column_properties], first
    inserting a copy of [default_column_properties_] when there is none. *)
Definition get_cp (defaults : ColumnProperties) (cps : gmap string ColumnProperties)
  (key : string) : ColumnProperties :=
  match cps !! key with Some c => c | None => defaults end.

(** One loop of [build()] over an override map,
    [for (item : m) get(item.first).set_x(item.second)].  The iteration order
    of the [std::unordered_map] is that of [map_to_list]; the keys are
    distinct, so the result does not depend on it. *)
Definition apply_overrides {V} (set : ColumnProperties -> V -> ColumnProperties)
  (defaults : ColumnProperties) (m : gmap string V) (cps : gmap string ColumnProperties)
  : gmap string ColumnProperties :=
  foldl (fun acc (kv : string * V) =>
           <[kv.1 := set (get_cp defaults acc kv.1) kv.2]> acc) cps (map_to_list m).

(** [build()]: the properties built and the builder after the call, whose
    [file_encryption_] has been moved out. *)
Definition build (b : t) : WriterProperties.t * t :=
  let d := default_column_properties_ b in
  let cps := apply_overrides set_statistics_enabled d (statistics_enabled_ b)
               (apply_overrides set_dictionary_enabled d (dictionary_enabled_ b)
                 (apply_overrides set_compression d (codecs_ b)
                   (apply_overrides set_encoding d (encodings_ b) ∅))) in
  ({| WriterProperties.pool_ := pool_ b;
      WriterProperties.dictionary_pagesize_limit_ := dictionary_pagesize_limit_ b;
      WriterProperties.write_batch_size_ := write_batch_size_ b;
      WriterProperties.max_row_group_length_ := max_row_group_length_ b;
      WriterProperties.pagesize_ := pagesize_ b;
      WriterProperties.parquet_version_ := version_ b;
      WriterProperties.parquet_created_by_ := created_by_ b;
      WriterProperties.parquet_file_encryption_ := file_encryption_ b;
      WriterProperties.default_column_properties_ := d;
      WriterProperties.column_properties_ := cps |},
   set_file_encryption b None).

End Builder.

(** ** ReaderProperties *)

Module ReaderProperties.

(** [DEFAULT_BUFFER_SIZE] and [DEFAULT_USE_BUFFERED_STREAM]. *)
Definition DEFAULT_BUFFER_SIZE : Z := 0.
Definition DEFAULT_USE_BUFFERED_STREAM : bool := false.

Record t := {
  pool_ : nat;
  buffer_size_ : Z;
  buffered_stream_enabled_ : bool;
  (** [None] is a null [std::shared_ptr<FileDecryptionProperties>]. *)
  file_decryption_ : option FileDecryptionProperties
}.

(** [ReaderProperties(pool)]. *)
Definition new (pool : nat) : t :=
  {| pool_ := pool; buffer_size_ := DEFAULT_BUFFER_SIZE;
     buffered_stream_enabled_ := DEFAULT_USE_BUFFERED_STREAM;
     file_decryption_ := None |}.

(** The stream [GetStream] creates: a [BufferedInputStream] built from
    (pool, buffer size, source, start, num_bytes) or an
    [InMemoryInputStream] built from (source, start, num_bytes); the source
    is a [RandomAccessSource*], an address. *)
Inductive InputStream :=
| BufferedInputStream (pool : nat) (buffer_size : Z) (source : nat) (start num_bytes : Z)
| InMemoryInputStream (source : nat) (start num_bytes : Z).

(** [GetStream(source, start, num_bytes)]. *)
Definition GetStream (r : t) (source : nat) (start num_bytes : Z) : InputStream :=
  if buffered_stream_enabled_ r
  then BufferedInputStream (pool_ r) (buffer_size_ r) source start num_bytes
  else InMemoryInputStream source start num_bytes.

(** The mutating members. *)
Inductive Op :=
| enable_buffered_stream
| disable_buffered_stream
| set_buffer_size (buf_size : Z)
| SetFileDecryption (decryption : option FileDecryptionProperties).

Definition step (r : t) (op : Op) : t :=
  match op with
  | enable_buffered_stream =>
      {| pool_ := pool_ r; buffer_size_ := buffer_size_ r;
         buffered_stream_enabled_ := true; file_decryption_ := file_decryption_ r |}
  | disable_buffered_stream =>
      {| pool_ := pool_ r; buffer_size_ := buffer_size_ r;
         buffered_stream_enabled_ := false; file_decryption_ := file_decryption_ r |}
  | set_buffer_size n =>
      {| pool_ := pool_ r; buffer_size_ := n;
         buffered_stream_enabled_ := buffered_stream_enabled_ r;
         file_decryption_ := file_decryption_ r |}
  | SetFileDecryption d =>
      {| pool_ := pool_ r; buffer_size_ := buffer_size_ r;
         buffered_stream_enabled_ := buffered_stream_enabled_ r;
         file_decryption_ := d |}
  end.

Definition run (r : t) (ops : list Op) : t := fold_left step ops r.

(** The last [enable]/[disable] call, and the last buffer size set. *)
Fixpoint last_buffering (ops : list Op) (dflt : bool) : bool :=
  match ops with
  | [] => dflt
  | enable_buffered_stream :: rest => last_buffering rest true
  | disable_buffered_stream :: rest => last_buffering rest false
  | _ :: rest => last_buffering rest dflt
  end.

Fixpoint last_buffer_size (ops : list Op) (dflt : Z) : Z :=
  match ops with
  | [] => dflt
  | set_buffer_size n :: rest => last_buffer_size rest n
  | _ :: rest => last_buffer_size rest dflt
  end.

End ReaderProperties.

(** The builder calls that install a [FileEncryptionProperties]. *)
Definition is_encryption_op (op : Builder.Op) : bool :=
  match op with
  | Builder.encryption_id _ _ _ | Builder.encryption_md _ _ _ => true
  | _ => false
  end.

(** The value set by the last call in [ops] that [sel] recognises, [dflt]
    if there is none. *)
Fixpoint last_setting {V} (sel : Builder.Op -> option V) (ops : list Builder.Op) (dflt : V) : V :=
  match ops with
  | [] => dflt
  | op :: rest => last_setting sel rest (default dflt (sel op))
  end.

(** The builder calls that set a column property for every column, and
    those that set it for [path]: [enable_dictionary()] /
    [disable_dictionary()], [enable_dictionary(path)] /
    [disable_dictionary(path)], and likewise for statistics, compression and
    the (non-dictionary) encodings. *)
Definition dictionary_global (op : Builder.Op) : option bool :=
  match op with
  | Builder.enable_dictionary => Some true
  | Builder.disable_dictionary => Some false
  | _ => None
  end.

Definition dictionary_at (path : string) (op : Builder.Op) : option (option bool) :=
  match op with
  | Builder.enable_dictionary_path p => if String.eqb p path then Some (Some true) else None
  | Builder.disable_dictionary_path p => if String.eqb p path then Some (Some false) else None
  | _ => None
  end.

Definition statistics_global (op : Builder.Op) : option bool :=
  match op with
  | Builder.enable_statistics => Some true
  | Builder.disable_statistics => Some false
  | _ => None
  end.

Definition statistics_at (path : string) (op : Builder.Op) : option (option bool) :=
  match op with
  | Builder.enable_statistics_path p => if String.eqb p path then Some (Some true) else None
  | Builder.disable_statistics_path p => if String.eqb p path then Some (Some false) else None
  | _ => None
  end.

Definition compression_global (op : Builder.Op) : option Compression :=
  match op with Builder.compression c => Some c | _ => None end.

Definition compression_at (path : string) (op : Builder.Op) : option (option Compression) :=
  match op with
  | Builder.compression_path p c => if String.eqb p path then Some (Some c) else None
  | _ => None
  end.

Definition encoding_global (op : Builder.Op) : option Encoding :=
  match op with
  | Builder.encoding e => if Builder.is_dictionary_encoding e then None else Some e
  | _ => None
  end.

Definition encoding_at (path : string) (op : Builder.Op) : option (option Encoding) :=
  match op with
  | Builder.encoding_path p e =>
      if String.eqb p path && negb (Builder.is_dictionary_encoding e) then Some (Some e)
      else None
  | _ => None
  end.

(** The builder calls that set one of the scalar settings. *)
Definition pool_set (op : Builder.Op) : option nat :=
  match op with Builder.memory_pool p => Some p | _ => None end.
Definition dictionary_pagesize_limit_set (op : Builder.Op) : option Z :=
  match op with Builder.dictionary_pagesize_limit v => Some v | _ => None end.
Definition write_batch_size_set (op : Builder.Op) : option Z :=
  match op with Builder.write_batch_size v => Some v | _ => None end.
Definition max_row_group_length_set (op : Builder.Op) : option Z :=
  match op with Builder.max_row_group_length v => Some v | _ => None end.
Definition data_pagesize_set (op : Builder.Op) : option Z :=
  match op with Builder.data_pagesize v => Some v | _ => None end.
Definition version_set (op : Builder.Op) : option ParquetVersion :=
  match op with Builder.version v => Some v | _ => None end.
Definition created_by_set (op : Builder.Op) : option string :=
  match op with Builder.created_by v => Some v | _ => None end.
Definition max_statistics_size_set (op : Builder.Op) : option nat :=
  match op with Builder.max_statistics_size v => Some v | _ => None end.

(** ** Concrete configurations *)

Definition K1 : string := "0123456789abcdef".
Definition K2 : string := "fedcba9876543210".
Definition K5 : string := "short".

Definition empty_heap : Heap := {| objs := ∅; next_ptr := 0 |}.

(** A column spec keyed with [key] through [SetEncryptionKey]. *)
Definition keyed_column (path key : string) : ColumnEncryptionProperties :=
  snd (SetEncryptionKey (mkColumnEncryptionProperties true path) key EmptyString).

(** The policy with footer key [key] in the empty heap (release build). *)
Definition policy_of (key : string) : FileEncryptionProperties * Heap :=
  match FileEncryptionProperties_new Release empty_heap AES_GCM_V1 key EmptyString false with
  | Ok fh => fh
  | _ => ({| footer_encryption_ := 0; uniform_encryption_ := false; columns_ := [];
             encrypt_the_rest_ := false |}, empty_heap)
  end.

(** Setting up [cols] on [policy_of key]: the outcome, the object, the heap. *)
Definition setup_of (key : string) (cols : list ColumnEncryptionProperties) (rest : bool)
  : Result unit * FileEncryptionProperties * Heap :=
  let (f, h) := policy_of key in
  let (r, f') := SetupColumns h f cols rest in (r, f', h).

(** Scenario A of the spec. *)
Example scenario_A :
  let '(r, f, _) := setup_of K1 [keyed_column "a" K1] true in
  r = Ok tt /\ uniform_encryption_ f = true
  /\ GetColumnCryptoMetaData f "b" = mkColumnEncryptionProperties true "b".
Proof. vm_compute. auto. Qed.

(** Scenario B of the spec. *)
Example scenario_B :
  let '(r, f, h) := setup_of K1 [keyed_column "a" K2] false in
  r = Ok tt /\ uniform_encryption_ f = false
  /\ (match GetColumnEncryptionProperties h f "a" with
      | Ok (Some p, h') => option_map ep_key (objs h' !! p) = Some K2
      | _ => False end)
  /\ GetColumnEncryptionProperties h f "b" = Ok (None, h).
Proof. vm_compute. auto. Qed.

(** Scenario C of the spec. *)
Example scenario_C :
  let '(r, f, h) := setup_of EmptyString [keyed_column "a" K2] false in
  r = Ok tt /\ GetColumnEncryptionProperties h f "b" = Ok (None, h).
Proof. vm_compute. auto. Qed.

(** ** Lemmas about the [SetupColumns] scans *)

Lemma uniform_scan_Forall (fk : string) (cols : list ColumnEncryptionProperties) :
  uniform_scan fk cols = true <-> Forall (fun c => key_ c = fk) cols.
Proof.
  induction cols as [|c cs IH]; simpl.
  - split; auto.
  - destruct (String.eqb_spec (key_ c) fk) as [E|E].
    + rewrite IH. split; [intros H; constructor; auto | intros H; inversion H; auto].
    + split; [discriminate | intros H; inversion H; contradiction].
Qed.

Lemma uniform_scan_app_mismatch (fk : string) (l1 l2 : list ColumnEncryptionProperties)
  (c : ColumnEncryptionProperties) :
  key_ c <> fk -> uniform_scan fk (l1 ++ c :: l2) = uniform_scan fk (l1 ++ [c]).
Proof.
  intros Hc. induction l1 as [|x xs IH]; simpl.
  - apply String.eqb_neq in Hc. rewrite Hc. reflexivity.
  - destruct (String.eqb (key_ x) fk); auto.
Qed.

Lemma is_empty_true (s : string) : is_empty s = true <-> s = EmptyString.
Proof. destruct s; simpl; split; congruence. Qed.

(** ** C1: uniform classification *)

(** C1 as stated fails: with footer key [K1], one column spec marked
    encrypted whose key is unset (footer-keyed) leaves every spec's key equal
    to the footer key or unset, yet [uniform_encryption_] ends false. *)
Lemma C1_unset_key_not_uniform :
  let cols := [mkColumnEncryptionProperties true "a"] in
  let '(r, f, _) := setup_of K1 cols true in
  r = Ok tt /\ Forall (fun c => key_ c = K1 \/ key_ c = EmptyString) cols
  /\ uniform_encryption_ f = false.
Proof.
  vm_compute. split; [reflexivity | split; [|reflexivity]].
  constructor; [right; reflexivity | constructor].
Qed.

(** C1 (amended): with a non-empty footer key, [SetupColumns] succeeds and
    sets [uniform_encryption_] to true exactly when every listed column
    spec's key equals the footer key (an unset key is a mismatch); the scan
    stops at the first mismatch, so the columns after it do not matter. *)
Theorem SetupColumns_uniform_iff (h : Heap) (f : FileEncryptionProperties)
  (fe : EncryptionProperties) (cols : list ColumnEncryptionProperties) (rest : bool) :
  objs h !! footer_encryption_ f = Some fe ->
  ep_key fe <> EmptyString ->
  fst (SetupColumns h f cols rest) = Ok tt
  /\ (uniform_encryption_ (snd (SetupColumns h f cols rest)) = true
      <-> Forall (fun c => key_ c = ep_key fe) cols)
  /\ (forall l1 c l2, cols = (l1 ++ c :: l2)%list -> key_ c <> ep_key fe ->
      uniform_encryption_ (snd (SetupColumns h f cols rest))
      = uniform_scan (ep_key fe) (l1 ++ [c])%list).
Proof.
  intros Hfe Hk. unfold SetupColumns. simpl. rewrite Hfe.
  assert (Hne : is_empty (ep_key fe) = false).
  { destruct (is_empty (ep_key fe)) eqn:E; auto. apply is_empty_true in E. contradiction. }
  rewrite Hne. simpl. split; [reflexivity | split].
  - apply uniform_scan_Forall.
  - intros l1 c l2 -> Hc. apply uniform_scan_app_mismatch. exact Hc.
Qed.

Lemma SetupColumns_uniform_iff_witness :
  objs (snd (policy_of K1)) !! footer_encryption_ (fst (policy_of K1))
    = Some {| algorithm := AES_GCM_V1; ep_key := K1; ep_key_metadata := EmptyString;
              ep_aad := EmptyString |}
  /\ fst (SetupColumns (snd (policy_of K1)) (fst (policy_of K1))
            [keyed_column "a" K2] false) = Ok tt.
Proof.
  split; [reflexivity|].
  apply (SetupColumns_uniform_iff (snd (policy_of K1)) (fst (policy_of K1))
           {| algorithm := AES_GCM_V1; ep_key := K1; ep_key_metadata := EmptyString;
              ep_aad := EmptyString |} [keyed_column "a" K2] false);
    [reflexivity | discriminate].
Defined.

(** ** C2: the key material of a column *)

Lemma heap_wf_empty : heap_wf empty_heap.
Proof. intros p [x Hx]. simpl in Hx. rewrite lookup_empty in Hx. discriminate. Qed.

Lemma heap_wf_alloc (h : Heap) (v : EncryptionProperties) :
  heap_wf h -> heap_wf (snd (alloc h v)).
Proof.
  intros Hwf p Hp. simpl in *. destruct (decide (p = next_ptr h)) as [->|Hne]; [lia|].
  rewrite lookup_insert_ne in Hp by congruence. specialize (Hwf p Hp). lia.
Qed.

Lemma find_column_Some (f : FileEncryptionProperties) (path : string)
  (col : ColumnEncryptionProperties) :
  find_column f path = Some col -> In col (columns_ f) /\ path_ col = path.
Proof.
  unfold find_column. intros H. split.
  - eapply find_some. exact H.
  - apply find_some in H as [_ H]. apply String.eqb_eq. exact H.
Qed.

(** C2: in uniform mode [GetColumnEncryptionProperties] returns the footer's
    own pointer for every path and allocates nothing; in non-uniform mode a
    path matching a listed spec (the first one) gets a freshly allocated
    object, distinct from the footer's, holding the footer's algorithm, the
    spec's key and key metadata and the footer's AAD; an unlisted path gets
    the footer's pointer when [encrypt_the_rest_] is set and [nullptr]
    otherwise. *)
Theorem GetColumnEncryptionProperties_spec (h : Heap) (f : FileEncryptionProperties)
  (fe : EncryptionProperties) (path : string) :
  heap_wf h ->
  objs h !! footer_encryption_ f = Some fe ->
  (uniform_encryption_ f = true ->
   GetColumnEncryptionProperties h f path = Ok (Some (footer_encryption_ f), h))
  /\ (uniform_encryption_ f = false -> forall col, find_column f path = Some col ->
      exists p h', GetColumnEncryptionProperties h f path = Ok (Some p, h')
        /\ p <> footer_encryption_ f
        /\ objs h' !! p = Some {| algorithm := algorithm fe; ep_key := key_ col;
                                  ep_key_metadata := key_metadata_ col;
                                  ep_aad := ep_aad fe |}
        /\ objs h' !! footer_encryption_ f = Some fe)
  /\ (uniform_encryption_ f = false -> find_column f path = None ->
      GetColumnEncryptionProperties h f path
      = Ok (if encrypt_the_rest_ f then Some (footer_encryption_ f) else None, h)).
Proof.
  intros Hwf Hfe. unfold GetColumnEncryptionProperties.
  assert (Hlt : (footer_encryption_ f < next_ptr h)%nat) by (apply Hwf; rewrite Hfe; eauto).
  split; [intros -> ; reflexivity | split].
  - intros Hu col Hcol. rewrite Hu, Hcol, Hfe. simpl.
    do 2 eexists. split; [reflexivity|]. simpl.
    split; [lia|]. split.
    + apply lookup_insert_eq.
    + rewrite lookup_insert_ne by lia. exact Hfe.
  - intros Hu Hnone. rewrite Hu, Hnone. destruct (encrypt_the_rest_ f); reflexivity.
Qed.

Lemma GetColumnEncryptionProperties_spec_witness :
  heap_wf (snd (setup_of K1 [keyed_column "a" K2] false))
  /\ exists p h', GetColumnEncryptionProperties (snd (setup_of K1 [keyed_column "a" K2] false))
                    (snd (fst (setup_of K1 [keyed_column "a" K2] false))) "a" = Ok (Some p, h')
                  /\ p <> 0%nat.
Proof.
  assert (Hwf : heap_wf (snd (setup_of K1 [keyed_column "a" K2] false))).
  { assert (E : snd (setup_of K1 [keyed_column "a" K2] false)
                = snd (alloc empty_heap {| algorithm := AES_GCM_V1; ep_key := K1;
                                           ep_key_metadata := EmptyString;
                                           ep_aad := EmptyString |})) by reflexivity.
    rewrite E. apply heap_wf_alloc, heap_wf_empty. }
  split; [exact Hwf|].
  destruct (GetColumnEncryptionProperties_spec
              (snd (setup_of K1 [keyed_column "a" K2] false))
              (snd (fst (setup_of K1 [keyed_column "a" K2] false)))
              {| algorithm := AES_GCM_V1; ep_key := K1; ep_key_metadata := EmptyString;
                 ep_aad := EmptyString |} "a" Hwf eq_refl)
    as [_ [Hl _]].
  destruct (Hl eq_refl (keyed_column "a" K2) eq_refl) as [p [h' [E [Hne _]]]].
  exists p, h'. split; [exact E | exact Hne].
Defined.

(** ** C3: the crypto metadata of a column *)

(** C3: in uniform mode [GetColumnCryptoMetaData] describes every path as
    encrypted with the footer key; in non-uniform mode a listed path gets its
    (first) listed spec itself, an unlisted path a footer-keyed encrypted spec
    when [encrypt_the_rest_] is set and an unencrypted spec otherwise. *)
Theorem GetColumnCryptoMetaData_spec (f : FileEncryptionProperties) (path : string) :
  (uniform_encryption_ f = true ->
   let r := GetColumnCryptoMetaData f path in
   encrypt_ r = true /\ encrypted_with_footer_key_ r = true /\ path_ r = path)
  /\ (uniform_encryption_ f = false -> forall col, find_column f path = Some col ->
      GetColumnCryptoMetaData f path = col)
  /\ (uniform_encryption_ f = false -> find_column f path = None ->
      encrypt_the_rest_ f = true ->
      let r := GetColumnCryptoMetaData f path in
      encrypt_ r = true /\ encrypted_with_footer_key_ r = true /\ path_ r = path)
  /\ (uniform_encryption_ f = false -> find_column f path = None ->
      encrypt_the_rest_ f = false ->
      let r := GetColumnCryptoMetaData f path in
      encrypt_ r = false /\ path_ r = path).
Proof.
  unfold GetColumnCryptoMetaData. split; [|split; [|split]].
  - intros Hu. rewrite Hu. simpl. auto.
  - intros Hu col Hcol. rewrite Hu, Hcol. reflexivity.
  - intros Hu Hn Hr. rewrite Hu, Hn, Hr. simpl. auto.
  - intros Hu Hn Hr. rewrite Hu, Hn, Hr. simpl. auto.
Qed.

(** ** C4, C5, C6: configurations rejected by [SetupColumns] *)

(** C4: with an empty footer key, [SetupColumns] with [encrypt_the_rest]
    set throws, whatever the column list. *)
Theorem SetupColumns_rest_without_footer_key (h : Heap) (f : FileEncryptionProperties)
  (fe : EncryptionProperties) (cols : list ColumnEncryptionProperties) :
  objs h !! footer_encryption_ f = Some fe ->
  ep_key fe = EmptyString ->
  fst (SetupColumns h f cols true)
  = Throw (ParquetException "Encrypt the rest with null footer key").
Proof. intros Hfe Hk. unfold SetupColumns. simpl. rewrite Hfe, Hk. reflexivity. Qed.

Lemma SetupColumns_rest_without_footer_key_witness :
  fst (SetupColumns (snd (policy_of EmptyString)) (fst (policy_of EmptyString))
         [keyed_column "a" K2] true)
  = Throw (ParquetException "Encrypt the rest with null footer key").
Proof.
  apply (SetupColumns_rest_without_footer_key _ _
           {| algorithm := AES_GCM_V1; ep_key := EmptyString;
              ep_key_metadata := EmptyString; ep_aad := EmptyString |});
    reflexivity.
Defined.

Lemma null_footer_scan_keyless (cols : list ColumnEncryptionProperties) (b : bool) :
  Exists (fun c => encrypt_ c = true /\ key_ c = EmptyString) cols ->
  null_footer_scan cols b = Throw (ParquetException "Encrypt column with null footer key").
Proof.
  intros Hex. revert b. induction Hex as [c cs [He Hk] | c cs _ IH]; intros b; simpl.
  - rewrite He, Hk. reflexivity.
  - destruct (encrypt_ c); [destruct (is_empty (key_ c))|]; auto.
Qed.

(** C5: with an empty footer key, [SetupColumns] throws whenever some
    column spec is marked encrypted and has an empty key. *)
Theorem SetupColumns_keyless_encrypted_column (h : Heap) (f : FileEncryptionProperties)
  (fe : EncryptionProperties) (cols : list ColumnEncryptionProperties) (rest : bool) :
  objs h !! footer_encryption_ f = Some fe ->
  ep_key fe = EmptyString ->
  Exists (fun c => encrypt_ c = true /\ key_ c = EmptyString) cols ->
  exists msg, fst (SetupColumns h f cols rest) = Throw (ParquetException msg).
Proof.
  intros Hfe Hk Hex. unfold SetupColumns. simpl. rewrite Hfe, Hk. simpl.
  destruct rest; [eexists; reflexivity|].
  rewrite (null_footer_scan_keyless cols true Hex). eexists; reflexivity.
Qed.

Lemma SetupColumns_keyless_encrypted_column_witness :
  exists msg, fst (SetupColumns (snd (policy_of EmptyString)) (fst (policy_of EmptyString))
                    [keyed_column "a" K2; mkColumnEncryptionProperties true "b"] false)
              = Throw (ParquetException msg).
Proof.
  apply (SetupColumns_keyless_encrypted_column _ _
           {| algorithm := AES_GCM_V1; ep_key := EmptyString;
              ep_key_metadata := EmptyString; ep_aad := EmptyString |});
    [reflexivity | reflexivity |].
  apply Exists_cons_tl, Exists_cons_hd. split; reflexivity.
Defined.

Lemma null_footer_scan_unencrypted (cols : list ColumnEncryptionProperties) (b : bool) :
  Forall (fun c => encrypt_ c = false) cols -> null_footer_scan cols b = Ok b.
Proof.
  intros Hall. revert b. induction Hall as [|c cs Hc _ IH]; intros b; simpl.
  - reflexivity.
  - rewrite Hc. apply IH.
Qed.

(** C6 as stated fails: with the non-empty footer key [K1], a column list
    holding only an unencrypted spec and [encrypt_the_rest = false] is
    accepted. *)
Lemma C6_footer_key_all_unencrypted_accepted :
  let cols := [mkColumnEncryptionProperties false "a"] in
  Forall (fun c => encrypt_ c = false) cols
  /\ fst (fst (setup_of K1 cols false)) = Ok tt.
Proof. split; [repeat constructor | reflexivity]. Qed.

(** C6 (amended): when every column spec is unencrypted and
    [encrypt_the_rest] is false, [SetupColumns] throws exactly when the
    footer key is empty; with a non-empty footer key it succeeds. *)
Theorem SetupColumns_all_unencrypted (h : Heap) (f : FileEncryptionProperties)
  (fe : EncryptionProperties) (cols : list ColumnEncryptionProperties) :
  objs h !! footer_encryption_ f = Some fe ->
  Forall (fun c => encrypt_ c = false) cols ->
  fst (SetupColumns h f cols false)
  = if is_empty (ep_key fe)
    then Throw (ParquetException "Footer and all columns unencrypted")
    else Ok tt.
Proof.
  intros Hfe Hall. unfold SetupColumns. simpl. rewrite Hfe.
  destruct (is_empty (ep_key fe)); simpl; [|reflexivity].
  rewrite (null_footer_scan_unencrypted cols true Hall). reflexivity.
Qed.

Lemma SetupColumns_all_unencrypted_witness :
  fst (SetupColumns (snd (policy_of EmptyString)) (fst (policy_of EmptyString))
         [mkColumnEncryptionProperties false "a"] false)
  = Throw (ParquetException "Footer and all columns unencrypted").
Proof.
  apply (SetupColumns_all_unencrypted _ _
           {| algorithm := AES_GCM_V1; ep_key := EmptyString;
              ep_key_metadata := EmptyString; ep_aad := EmptyString |});
    [reflexivity | repeat constructor].
Defined.

(** ** C7: key resolution when decrypting *)

(** C7: [GetColumnKey] with empty metadata looks the path up in
    [column_keys_] and throws [std::out_of_range] when it is absent; with
    non-empty metadata it throws when no retriever is set and otherwise
    returns whatever the retriever does on that metadata.  [GetFooterKey]
    has the same shape, the stored footer key replacing the map lookup. *)
Theorem GetColumnKey_GetFooterKey_spec (d : FileDecryptionProperties)
  (path key_metadata : string) :
  (key_metadata = EmptyString -> forall k, column_keys_ d !! path = Some k ->
   GetColumnKey d path key_metadata = Ok k)
  /\ (key_metadata = EmptyString -> column_keys_ d !! path = None ->
      GetColumnKey d path key_metadata = Throw OutOfRange)
  /\ (key_metadata <> EmptyString -> key_retriever_ d = None ->
      exists msg, GetColumnKey d path key_metadata = Throw (ParquetException msg))
  /\ (key_metadata <> EmptyString -> forall r, key_retriever_ d = Some r ->
      GetColumnKey d path key_metadata = r key_metadata)
  /\ (key_metadata = EmptyString -> GetFooterKey d key_metadata = Ok (footer_key_ d))
  /\ (key_metadata <> EmptyString -> key_retriever_ d = None ->
      exists msg, GetFooterKey d key_metadata = Throw (ParquetException msg))
  /\ (key_metadata <> EmptyString -> forall r, key_retriever_ d = Some r ->
      GetFooterKey d key_metadata = r key_metadata).
Proof.
  unfold GetColumnKey, GetFooterKey.
  destruct (is_empty key_metadata) eqn:E.
  - apply is_empty_true in E. subst key_metadata.
    repeat split; intros; try congruence.
    + match goal with H : column_keys_ d !! path = _ |- _ => rewrite H end. reflexivity.
    + match goal with H : column_keys_ d !! path = _ |- _ => rewrite H end. reflexivity.
  - repeat split; intros; subst; try discriminate;
      match goal with H : key_retriever_ d = _ |- _ => rewrite H end;
      eauto.
Qed.

(** Scenario D of the spec: a retriever mapping [M] to [K1]. *)
Definition scenario_D_retriever : DecryptionKeyRetriever :=
  fun md => if String.eqb md "M" then Ok K1
            else Throw (ParquetException "key retrieval failed").

Example scenario_D :
  let d := FileDecryptionProperties_of_retriever (Some scenario_D_retriever) in
  GetColumnKey d "a" "M" = Ok K1 /\ GetColumnKey d "a" EmptyString = Throw OutOfRange.
Proof. split; reflexivity. Qed.

(** ** C8: key and key-metadata length checks *)

(** C8 as stated fails: in a release build the [DCHECK]s are compiled out,
    so a five-byte footer key, key metadata longer than 256 bytes and a
    five-byte column key are all accepted. *)
Lemma C8_release_accepts_bad_lengths :
  (exists f h, FileEncryptionProperties_new Release empty_heap AES_GCM_V1 K5
                 (String.concat EmptyString (repeat K1 17)) false = Ok (f, h))
  /\ (exists d, SetColumnKey Release (FileDecryptionProperties_of_retriever None) "a" K5
                = Ok d).
Proof. split; do 2? eexists; reflexivity. Qed.

(** C8 (amended): the length checks are debug assertions.  In a debug build,
    constructing a policy with a non-empty footer key whose length is not
    16, 24 or 32, or with key metadata longer than 256, aborts, and so does
    registering a column key whose length is not 16, 24 or 32; in a release
    build both succeed; neither ever throws. *)
Theorem key_length_checks (h : Heap) (alg : EncryptionType) (key key_metadata : string)
  (indeterminate : bool) (d : FileDecryptionProperties) (paths : list string)
  (column_key : string) :
  (key <> EmptyString -> valid_key_length key = false ->
   FileEncryptionProperties_new Debug h alg key key_metadata indeterminate = Abort)
  /\ ((256 < String.length key_metadata)%nat ->
      FileEncryptionProperties_new Debug h alg key key_metadata indeterminate = Abort)
  /\ (valid_key_length column_key = false ->
      SetColumnKeyPaths Debug d paths column_key = Abort)
  /\ (exists f h', FileEncryptionProperties_new Release h alg key key_metadata indeterminate
                   = Ok (f, h'))
  /\ (exists d', SetColumnKeyPaths Release d paths column_key = Ok d')
  /\ (forall mode e,
      FileEncryptionProperties_new mode h alg key key_metadata indeterminate <> Throw e
      /\ SetColumnKeyPaths mode d paths column_key <> Throw e).
Proof.
  unfold FileEncryptionProperties_new, SetColumnKeyPaths. split; [|split; [|split; [|split; [|split]]]].
  - intros _ Hv. simpl. rewrite Hv. reflexivity.
  - intros Hlen. simpl. destruct (valid_key_length key); simpl; [|reflexivity].
    destruct key_metadata as [|a s]; simpl in *; [lia|].
    destruct (Nat.leb_spec (String.length s) 255); [lia | reflexivity].
  - intros Hv. simpl. rewrite Hv. reflexivity.
  - simpl. destruct (negb (is_empty key_metadata)); simpl; eauto.
  - simpl. eauto.
  - intros mode e.
    destruct mode, (valid_key_length key), (negb (is_empty key_metadata)),
      (String.length key_metadata <=? 256)%nat, (valid_key_length column_key);
      simpl; split; discriminate.
Qed.

(** ** C9: keying a column *)

(** Reading back a four-byte key-id blob in the given byte order. *)
Definition u32_of_bytes (e : Endianness) (s : string) : option Z :=
  let n (c : ascii) := Z.of_N (N_of_ascii c) in
  match list_ascii_of_string s with
  | [b0; b1; b2; b3] =>
      Some match e with
           | LittleEndian => n b0 + 256 * (n b1 + 256 * (n b2 + 256 * n b3))
           | BigEndian => n b3 + 256 * (n b2 + 256 * (n b1 + 256 * n b0))
           end%Z
  | _ => None
  end.

Local Open Scope Z_scope.

Lemma byte_of_value (id i : Z) :
  0 <= i -> Z.of_N (N_of_ascii (byte_of id i)) = (id / 2 ^ (8 * i)) mod 256.
Proof.
  intros Hi. unfold byte_of.
  change 255 with (Z.ones 8). rewrite Z.land_ones by lia.
  rewrite Z.shiftr_div_pow2 by lia.
  assert (Hb : 0 <= (id / 2 ^ (8 * i)) mod 2 ^ 8 < 2 ^ 8) by (apply Z.mod_pos_bound; lia).
  rewrite N_ascii_embedding.
  - rewrite Z2N.id by lia. reflexivity.
  - change 256%N with (Z.to_N (2 ^ 8)). apply Z2N.inj_lt; lia.
Qed.

Lemma u32_bytes_roundtrip (e : Endianness) (id : Z) :
  0 <= id < 2 ^ 32 -> u32_of_bytes e (u32_bytes e id) = Some id.
Proof.
  intros Hid.
  assert (H : Z.of_N (N_of_ascii (byte_of id 0)) + 256 * (Z.of_N (N_of_ascii (byte_of id 1))
              + 256 * (Z.of_N (N_of_ascii (byte_of id 2))
              + 256 * Z.of_N (N_of_ascii (byte_of id 3)))) = id).
  { rewrite !byte_of_value by lia.
    change (2 ^ (8 * 0)) with 1. change (2 ^ (8 * 1)) with 256.
    change (2 ^ (8 * 2)) with 65536. change (2 ^ (8 * 3)) with 16777216.
    replace (id / 65536) with (id / 256 / 256) by (rewrite Z.div_div by lia; reflexivity).
    replace (id / 16777216) with (id / 256 / 256 / 256)
      by (rewrite !Z.div_div by lia; reflexivity).
    rewrite Z.div_1_r.
    assert (H3 : 0 <= id / 256 / 256 / 256 < 256).
    { rewrite !Z.div_div by lia. split; [apply Z.div_pos; lia|].
      apply Z.div_lt_upper_bound; lia. }
    rewrite (Z.mod_small (id / 256 / 256 / 256)) by lia.
    pose proof (Z.div_mod id 256 ltac:(lia)).
    pose proof (Z.div_mod (id / 256) 256 ltac:(lia)).
    pose proof (Z.div_mod (id / 256 / 256) 256 ltac:(lia)).
    lia. }
  unfold u32_of_bytes, u32_bytes.
  rewrite list_ascii_of_string_of_list_ascii.
  destruct e; rewrite H; reflexivity.
Qed.

(** C9: [SetEncryptionKey] throws, leaving the object as it was, when the
    column is not marked encrypted or the key is empty; otherwise it clears
    [encrypted_with_footer_key_] and stores the key and metadata.  The
    key-id overload passes empty metadata for id 0 and otherwise a
    four-byte blob that reads back as the id. *)
Theorem SetEncryptionKey_spec (e : Endianness) (c : ColumnEncryptionProperties)
  (key key_metadata : string) (key_id : Z) :
  0 <= key_id < 2 ^ 32 ->
  (encrypt_ c = false ->
   exists msg, SetEncryptionKey c key key_metadata = (Throw (ParquetException msg), c))
  /\ (key = EmptyString ->
      exists msg, SetEncryptionKey c key key_metadata = (Throw (ParquetException msg), c))
  /\ (encrypt_ c = true -> key <> EmptyString ->
      SetEncryptionKey c key key_metadata
      = (Ok tt, {| encrypt_ := encrypt_ c; path_ := path_ c;
                   encrypted_with_footer_key_ := false;
                   key_ := key; key_metadata_ := key_metadata |}))
  /\ (key_id = 0 -> SetEncryptionKeyId e c key key_id = SetEncryptionKey c key EmptyString)
  /\ (key_id <> 0 -> exists blob,
      String.length blob = 4%nat /\ u32_of_bytes e blob = Some key_id
      /\ SetEncryptionKeyId e c key key_id = SetEncryptionKey c key blob).
Proof.
  intros Hid. unfold SetEncryptionKey. split; [|split; [|split; [|split]]].
  - intros He. rewrite He. simpl. eauto.
  - intros ->. destruct (encrypt_ c); simpl; eauto.
  - intros He Hk. rewrite He. simpl.
    destruct (is_empty key) eqn:E; [apply is_empty_true in E; contradiction|reflexivity].
  - intros ->. reflexivity.
  - intros Hnz. exists (u32_bytes e key_id). split; [destruct e; reflexivity|].
    split; [apply u32_bytes_roundtrip; exact Hid|].
    unfold SetEncryptionKeyId. apply Z.eqb_neq in Hnz. rewrite Hnz. reflexivity.
Qed.

Lemma SetEncryptionKey_spec_witness :
  (0 <= 258 < 2 ^ 32)
  /\ exists blob, String.length blob = 4%nat /\ u32_of_bytes LittleEndian blob = Some 258
     /\ SetEncryptionKeyId LittleEndian (mkColumnEncryptionProperties true "a") K2 258
        = SetEncryptionKey (mkColumnEncryptionProperties true "a") K2 blob.
Proof.
  split; [lia|].
  apply (SetEncryptionKey_spec LittleEndian (mkColumnEncryptionProperties true "a")
           K2 EmptyString 258); [lia | discriminate].
Defined.

(** ** C10: the state before [SetupColumns] *)

(** C10: a policy constructed with a non-empty footer key is uniform before
    [SetupColumns] is called: every path is described as encrypted with the
    footer key and gets the footer's own key material. *)
Theorem new_policy_uniform (mode : BuildMode) (h : Heap) (alg : EncryptionType)
  (key key_metadata : string) (indeterminate : bool)
  (f : FileEncryptionProperties) (h' : Heap) :
  FileEncryptionProperties_new mode h alg key key_metadata indeterminate = Ok (f, h') ->
  key <> EmptyString ->
  uniform_encryption_ f = true
  /\ columns_ f = []
  /\ objs h' !! footer_encryption_ f
     = Some {| algorithm := alg; ep_key := key; ep_key_metadata := key_metadata;
               ep_aad := EmptyString |}
  /\ (forall path, let r := GetColumnCryptoMetaData f path in
      encrypt_ r = true /\ encrypted_with_footer_key_ r = true /\ path_ r = path)
  /\ (forall path, GetColumnEncryptionProperties h' f path
                   = Ok (Some (footer_encryption_ f), h')).
Proof.
  intros Hnew Hk.
  assert (Hu : uniform_encryption_ f = true /\ columns_ f = []
               /\ objs h' !! footer_encryption_ f
                  = Some {| algorithm := alg; ep_key := key;
                            ep_key_metadata := key_metadata; ep_aad := EmptyString |}).
  { unfold FileEncryptionProperties_new in Hnew.
    destruct (DCHECK mode (valid_key_length key)); simpl in Hnew; try discriminate.
    destruct (if negb (is_empty key_metadata) then _ else _); simpl in Hnew;
      try discriminate.
    injection Hnew as <- <-. simpl. split; [|split; [reflexivity|apply lookup_insert_eq]].
    destruct (is_empty key) eqn:E; [apply is_empty_true in E; contradiction|reflexivity]. }
  destruct Hu as [Hu [Hc Hfe]].
  split; [exact Hu | split; [exact Hc | split; [exact Hfe|split]]].
  - intros path. unfold GetColumnCryptoMetaData. rewrite Hu. simpl. auto.
  - intros path. unfold GetColumnEncryptionProperties. rewrite Hu. reflexivity.
Qed.

Lemma new_policy_uniform_witness :
  exists f h', FileEncryptionProperties_new Debug empty_heap AES_GCM_V1 K1 EmptyString false
               = Ok (f, h')
  /\ uniform_encryption_ f = true.
Proof.
  do 2 eexists. split; [reflexivity|].
  eapply (new_policy_uniform Debug empty_heap AES_GCM_V1 K1 EmptyString false);
    [reflexivity | discriminate].
Defined.

(** ** WriterProperties::Builder::build *)

Lemma foldl_overrides_lookup {V} (set : ColumnProperties -> V -> ColumnProperties)
  (d : ColumnProperties) (l : list (string * V)) (cps : gmap string ColumnProperties)
  (p : string) :
  NoDup l.*1 ->
  foldl (fun acc (kv : string * V) =>
           <[kv.1 := set (Builder.get_cp d acc kv.1) kv.2]> acc) cps l !! p
  = match (list_to_map l : gmap string V) !! p with
    | Some v => Some (set (Builder.get_cp d cps p) v)
    | None => cps !! p
    end.
Proof.
  revert cps. induction l as [|[k v] l IH]; intros cps Hnd; simpl.
  - rewrite lookup_empty. reflexivity.
  - simpl in Hnd. apply NoDup_cons in Hnd as [Hk Hnd].
    rewrite IH by exact Hnd.
    destruct (decide (p = k)) as [->|Hne].
    + rewrite (not_elem_of_list_to_map_1 l k Hk), !lookup_insert_eq. reflexivity.
    + rewrite !lookup_insert_ne by congruence.
      unfold Builder.get_cp. rewrite lookup_insert_ne by congruence. reflexivity.
Qed.

Lemma get_cp_apply_overrides {V} (set : ColumnProperties -> V -> ColumnProperties)
  (d : ColumnProperties) (m : gmap string V) (cps : gmap string ColumnProperties)
  (p : string) :
  Builder.get_cp d (Builder.apply_overrides set d m cps) p
  = match m !! p with
    | Some v => set (Builder.get_cp d cps p) v
    | None => Builder.get_cp d cps p
    end.
Proof.
  unfold Builder.get_cp at 1, Builder.apply_overrides.
  rewrite foldl_overrides_lookup by apply NoDup_fst_map_to_list.
  rewrite list_to_map_to_list. destruct (m !! p); reflexivity.
Qed.

Lemma build_cp (b : Builder.t) (path : string) :
  let d := Builder.default_column_properties_ b in
  WriterProperties.column_properties (fst (Builder.build b)) path
  = {| encoding_ := default (encoding_ d) (Builder.encodings_ b !! path);
       codec_ := default (codec_ d) (Builder.codecs_ b !! path);
       dictionary_enabled_ := default (dictionary_enabled_ d)
                                (Builder.dictionary_enabled_ b !! path);
       statistics_enabled_ := default (statistics_enabled_ d)
                                (Builder.statistics_enabled_ b !! path);
       max_stats_size_ := max_stats_size_ d;
       encryption_ := encryption_ d |}.
Proof.
  intros d.
  change (WriterProperties.column_properties (fst (Builder.build b)) path)
    with (Builder.get_cp d
            (Builder.apply_overrides set_statistics_enabled d (Builder.statistics_enabled_ b)
              (Builder.apply_overrides set_dictionary_enabled d (Builder.dictionary_enabled_ b)
                (Builder.apply_overrides set_compression d (Builder.codecs_ b)
                  (Builder.apply_overrides set_encoding d (Builder.encodings_ b) ∅)))) path).
  rewrite !get_cp_apply_overrides.
  assert (E : Builder.get_cp d ∅ path = d) by reflexivity. rewrite E.
  destruct (Builder.statistics_enabled_ b !! path), (Builder.dictionary_enabled_ b !! path),
    (Builder.codecs_ b !! path), (Builder.encodings_ b !! path), d; reflexivity.
Qed.

(** [build()] gives each path the builder's default column properties with
    the per-path overrides applied: the encoding, codec, dictionary and
    statistics flags registered for that path replace the defaults, and the
    maximum statistics size and encryption are always the defaults. *)
Theorem build_column_properties (b : Builder.t) (path : string) :
  let d := Builder.default_column_properties_ b in
  WriterProperties.column_properties (fst (Builder.build b)) path
  = {| encoding_ := default (encoding_ d) (Builder.encodings_ b !! path);
       codec_ := default (codec_ d) (Builder.codecs_ b !! path);
       dictionary_enabled_ := default (dictionary_enabled_ d)
                                (Builder.dictionary_enabled_ b !! path);
       statistics_enabled_ := default (statistics_enabled_ d)
                                (Builder.statistics_enabled_ b !! path);
       max_stats_size_ := max_stats_size_ d;
       encryption_ := encryption_ d |}.
Proof. exact (build_cp b path). Qed.

(** A concrete platform. *)
Definition platform0 : Platform :=
  {| build_mode := Release; endianness := LittleEndian; indeterminate_bool := false;
     default_memory_pool := 1; DEFAULT_CREATED_BY := "parquet-cpp";
     DEFAULT_ENCRYPTION := {| algorithm := AES_GCM_V1; ep_key := EmptyString;
                              ep_key_metadata := EmptyString; ep_aad := EmptyString |} |}.

Example build_overrides_example :
  let b := fst (Builder.run platform0
                  [Builder.encoding_path "a" RLE; Builder.compression SNAPPY;
                   Builder.disable_dictionary_path "a"; Builder.compression_path "b" GZIP]
                  (Builder.new platform0, empty_heap)) in
  let w := fst (Builder.build b) in
  WriterProperties.encoding w "a" = RLE /\ WriterProperties.compression w "a" = SNAPPY
  /\ WriterProperties.dictionary_enabled w "a" = false
  /\ WriterProperties.compression w "b" = GZIP /\ WriterProperties.encoding w "c" = PLAIN.
Proof. vm_compute. repeat split. Qed.

Lemma step_keeps_no_dictionary_fallback (pf : Platform) (op : Builder.Op)
  (b : Builder.t) (h : Heap) :
  Builder.is_dictionary_encoding (encoding_ (Builder.default_column_properties_ b)) = false ->
  map_Forall (fun _ e => Builder.is_dictionary_encoding e = false) (Builder.encodings_ b) ->
  let b' := fst (snd (Builder.step pf op (b, h))) in
  Builder.is_dictionary_encoding (encoding_ (Builder.default_column_properties_ b')) = false
  /\ map_Forall (fun _ e => Builder.is_dictionary_encoding e = false) (Builder.encodings_ b').
Proof.
  intros Hd Hm. destruct op; simpl; auto.
  - destruct (Builder.is_dictionary_encoding enc) eqn:E; simpl; auto.
  - destruct (Builder.is_dictionary_encoding enc) eqn:E; simpl; auto.
    split; [exact Hd|]. apply map_Forall_insert_2; auto.
  - destruct (FileEncryptionProperties_new_id _ _ _ _ _ _ _) as [[f h']| |]; simpl; auto.
  - destruct (FileEncryptionProperties_new _ _ _ _ _ _) as [[f h']| |]; simpl; auto.
  - destruct (Builder.file_encryption_ b) as [f|]; simpl; auto.
    destruct (SetupColumns h f columns encrypt_the_rest); simpl; auto.
Qed.

(** Whatever sequence of builder calls is made (exceptions caught or not),
    the built properties never use a dictionary encoding as the encoding of
    a column, while [dictionary_index_encoding()] always is one. *)
Theorem built_encoding_never_dictionary (pf : Platform) (ops : list Builder.Op)
  (h : Heap) (path : string) :
  let w := fst (Builder.build (fst (Builder.run pf ops (Builder.new pf, h)))) in
  Builder.is_dictionary_encoding (WriterProperties.encoding w path) = false
  /\ Builder.is_dictionary_encoding (WriterProperties.dictionary_index_encoding w) = true.
Proof.
  assert (Hinv : forall st,
    Builder.is_dictionary_encoding
      (encoding_ (Builder.default_column_properties_ (fst st))) = false ->
    map_Forall (fun _ e => Builder.is_dictionary_encoding e = false)
      (Builder.encodings_ (fst st)) ->
    let b := fst (Builder.run pf ops st) in
    Builder.is_dictionary_encoding (encoding_ (Builder.default_column_properties_ b)) = false
    /\ map_Forall (fun _ e => Builder.is_dictionary_encoding e = false)
         (Builder.encodings_ b)).
  { induction ops as [|op ops IH]; intros [b h0] Hd Hm; [exact (conj Hd Hm)|].
    cbn [Builder.run].
    pose proof (step_keeps_no_dictionary_fallback pf op b h0 Hd Hm) as Hs.
    cbv zeta in Hs.
    destruct (Builder.step pf op (b, h0)) as [r [b' h']]. destruct Hs as [Hd' Hm'].
    apply (IH (b', h')); assumption. }
  destruct (Hinv (Builder.new pf, h) eq_refl (map_Forall_empty _)) as [Hd Hm].
  cbv zeta. split.
  - unfold WriterProperties.encoding. rewrite build_column_properties. cbn [encoding_].
    destruct (Builder.encodings_ _ !! path) eqn:E; simpl; [|exact Hd].
    exact (Hm _ _ E).
  - unfold WriterProperties.dictionary_index_encoding.
    destruct (WriterProperties.parquet_version_ _); reflexivity.
Qed.

(** ** Encryption through the builder *)

(** [build()] moves [file_encryption_] into the properties it returns: the
    builder is left without one, so a second [build()] gives properties
    with no encryption (only the column properties are the same) and a
    later [column_encryption] throws. *)
Theorem build_moves_file_encryption (pf : Platform) (b : Builder.t) (h : Heap)
  (path : string) (cols : list ColumnEncryptionProperties) (rest : bool) :
  let (w, b') := Builder.build b in
  WriterProperties.parquet_file_encryption_ w = Builder.file_encryption_ b
  /\ Builder.file_encryption_ b' = None
  /\ fst (Builder.step pf (Builder.column_encryption cols rest) (b', h))
     = Throw (ParquetException "null file encryption")
  /\ WriterProperties.encryption h (fst (Builder.build b')) path = Ok (None, h)
  /\ WriterProperties.footer_encryption (fst (Builder.build b')) = None
  /\ WriterProperties.column_properties (fst (Builder.build b')) path
     = WriterProperties.column_properties w path.
Proof. repeat split; reflexivity. Qed.

Lemma step_without_encryption (pf : Platform) (op : Builder.Op) (b : Builder.t) (h : Heap) :
  is_encryption_op op = false -> Builder.file_encryption_ b = None ->
  Builder.file_encryption_ (fst (snd (Builder.step pf op (b, h)))) = None
  /\ snd (snd (Builder.step pf op (b, h))) = h.
Proof.
  intros Hop Hf. destruct op; try discriminate Hop; simpl; auto.
  - destruct (Builder.is_dictionary_encoding enc); simpl; auto.
  - destruct (Builder.is_dictionary_encoding enc); simpl; auto.
  - rewrite Hf. simpl. auto.
Qed.

(** A builder on which no [encryption(...)] overload is called never holds
    a file encryption: [column_encryption] throws, and the built properties
    answer [nullptr] to [encryption(path)], [column_encryption_props(path)]
    and [footer_encryption()]; no key material is allocated. *)
Theorem no_encryption_without_encryption_call (pf : Platform) (ops : list Builder.Op)
  (h : Heap) (path : string) (cols : list ColumnEncryptionProperties) (rest : bool) :
  Forall (fun op => is_encryption_op op = false) ops ->
  let (b, h') := Builder.run pf ops (Builder.new pf, h) in
  Builder.file_encryption_ b = None /\ h' = h
  /\ fst (Builder.step pf (Builder.column_encryption cols rest) (b, h'))
     = Throw (ParquetException "null file encryption")
  /\ WriterProperties.encryption h' (fst (Builder.build b)) path = Ok (None, h')
  /\ WriterProperties.column_encryption_props (fst (Builder.build b)) path = None
  /\ WriterProperties.footer_encryption (fst (Builder.build b)) = None.
Proof.
  intros Hops.
  assert (Hrun : forall st, Builder.file_encryption_ (fst st) = None ->
            Builder.file_encryption_ (fst (Builder.run pf ops st)) = None
            /\ snd (Builder.run pf ops st) = snd st).
  { induction Hops as [|op ops Hop _ IH]; intros [b0 h0] Hf; [auto|].
    cbn [Builder.run].
    destruct (step_without_encryption pf op b0 h0 Hop Hf) as [Hf' Hh'].
    destruct (Builder.step pf op (b0, h0)) as [r [b1 h1]].
    simpl in Hf', Hh'. subst h1. destruct (IH (b1, h0) Hf') as [H1 H2]. auto. }
  destruct (Hrun (Builder.new pf, h) eq_refl) as [Hf Hh].
  destruct (Builder.run pf ops (Builder.new pf, h)) as [b h']. simpl in Hf, Hh. subst h'.
  unfold WriterProperties.encryption, WriterProperties.column_encryption_props,
    WriterProperties.footer_encryption.
  cbn [Builder.build fst WriterProperties.parquet_file_encryption_].
  repeat split; try rewrite Hf; try reflexivity.
  cbn [Builder.step]. rewrite Hf. reflexivity.
Qed.

Lemma no_encryption_without_encryption_call_witness :
  Forall (fun op => is_encryption_op op = false)
         [Builder.compression SNAPPY; Builder.enable_statistics_path "a"]
  /\ WriterProperties.footer_encryption
       (fst (Builder.build (fst (Builder.run platform0
              [Builder.compression SNAPPY; Builder.enable_statistics_path "a"]
              (Builder.new platform0, empty_heap))))) = None.
Proof.
  assert (Hops : Forall (fun op => is_encryption_op op = false)
                   [Builder.compression SNAPPY; Builder.enable_statistics_path "a"])
    by repeat constructor.
  split; [exact Hops|].
  pose proof (no_encryption_without_encryption_call platform0
                [Builder.compression SNAPPY; Builder.enable_statistics_path "a"]
                empty_heap "a" [] false Hops) as H.
  destruct (Builder.run platform0 _ _) as [b h'].
  destruct H as [_ [_ [_ [_ [_ H]]]]]. exact H.
Defined.

Lemma div_mod_shift (x c q : Z) :
  (0 < c)%Z -> ((x + (q * 256) * c) / c) mod 256 = (x / c) mod 256.
Proof. intros Hc. rewrite Z.div_add by lia. apply Z.mod_add. lia. Qed.

Lemma byte_of_wrap (id i : Z) :
  (0 <= i <= 3)%Z -> byte_of (id - 2 ^ 32) i = byte_of id i.
Proof.
  intros Hi. unfold byte_of. change 255%Z with (Z.ones 8).
  rewrite !Z.land_ones, !Z.shiftr_div_pow2 by lia. change (2 ^ 8)%Z with 256%Z.
  do 2 f_equal. change (2 ^ 32)%Z with 4294967296%Z.
  assert (i = 0 \/ i = 1 \/ i = 2 \/ i = 3)%Z as [ -> | [ -> | [ -> | -> ] ] ] by lia;
    [ change (2 ^ (8 * 0))%Z with 1%Z;
      replace (id - 4294967296)%Z with (id + (-16777216 * 256) * 1)%Z by lia
    | change (2 ^ (8 * 1))%Z with 256%Z;
      replace (id - 4294967296)%Z with (id + (-65536 * 256) * 256)%Z by lia
    | change (2 ^ (8 * 2))%Z with 65536%Z;
      replace (id - 4294967296)%Z with (id + (-256 * 256) * 65536)%Z by lia
    | change (2 ^ (8 * 3))%Z with 16777216%Z;
      replace (id - 4294967296)%Z with (id + (-1 * 256) * 16777216)%Z by lia ];
    apply div_mod_shift; lia.
Qed.

Lemma u32_bytes_to_int32 (e : Endianness) (id : Z) :
  (0 <= id < 2 ^ 32)%Z -> u32_bytes e (to_int32 id) = u32_bytes e id.
Proof.
  intros Hid. unfold to_int32.
  destruct (Z.ltb_spec id (2 ^ 31)); [reflexivity|].
  unfold u32_bytes. rewrite !byte_of_wrap by lia. reflexivity.
Qed.

Lemma FileEncryptionProperties_new_footer (mode : BuildMode) (h : Heap)
  (alg : EncryptionType) (key key_metadata : string) (ind : bool)
  (f : FileEncryptionProperties) (h' : Heap) :
  FileEncryptionProperties_new mode h alg key key_metadata ind = Ok (f, h') ->
  objs h' !! footer_encryption_ f
  = Some {| algorithm := alg; ep_key := key; ep_key_metadata := key_metadata;
            ep_aad := EmptyString |}
  /\ footer_encryption_ f = next_ptr h
  /\ uniform_encryption_ f = negb (is_empty key)
  /\ h' = snd (alloc h {| algorithm := alg; ep_key := key; ep_key_metadata := key_metadata;
                          ep_aad := EmptyString |}).
Proof.
  unfold FileEncryptionProperties_new. intros Hnew.
  destruct (DCHECK mode (valid_key_length key)); simpl in Hnew; try discriminate.
  destruct (if negb (is_empty key_metadata) then _ else _); simpl in Hnew;
    try discriminate.
  injection Hnew as <- <-. simpl. split; [apply lookup_insert_eq | auto].
Qed.

(** [Builder::encryption(algorithm, key, uint32_t key_id)] passes the id to
    the [int] constructor: when the call succeeds, the footer key metadata is
    empty for id 0 and otherwise four bytes that read back as the original
    unsigned id, also for ids of 2^31 and more, which become negative
    [int]s on the way. *)
Theorem builder_encryption_key_id (pf : Platform) (b : Builder.t) (h : Heap)
  (alg : EncryptionType) (key : string) (key_id : Z) (b' : Builder.t) (h' : Heap) :
  (0 <= key_id < 2 ^ 32)%Z ->
  Builder.step pf (Builder.encryption_id alg key key_id) (b, h) = (Ok tt, (b', h')) ->
  exists f md, Builder.file_encryption_ b' = Some f
    /\ option_map ep_key_metadata (objs h' !! footer_encryption_ f) = Some md
    /\ (key_id = 0%Z -> md = EmptyString)
    /\ (key_id <> 0%Z -> String.length md = 4%nat
                         /\ u32_of_bytes (endianness pf) md = Some key_id).
Proof.
  intros Hid Hstep. simpl in Hstep. unfold Builder.install, FileEncryptionProperties_new_id in Hstep.
  set (md := if Z.eqb (to_int32 key_id) 0 then EmptyString
             else u32_bytes (endianness pf) (to_int32 key_id)) in Hstep.
  destruct (FileEncryptionProperties_new _ _ _ _ _ _) as [[f h1]| |] eqn:En;
    try discriminate.
  injection Hstep as <- <-.
  destruct (FileEncryptionProperties_new_footer _ _ _ _ _ _ _ _ En) as [Hfe _].
  exists f, md. simpl. rewrite Hfe. split; [reflexivity | split; [reflexivity|]].
  assert (Hz : (to_int32 key_id =? 0)%Z = (key_id =? 0)%Z).
  { unfold to_int32. destruct (Z.ltb_spec key_id (2 ^ 31)); [reflexivity|].
    destruct (Z.eqb_spec (key_id - 2 ^ 32) 0), (Z.eqb_spec key_id 0); lia. }
  subst md. rewrite Hz. split.
  - intros ->. reflexivity.
  - intros Hnz. apply Z.eqb_neq in Hnz. rewrite Hnz.
    rewrite u32_bytes_to_int32 by exact Hid.
    split; [destruct (endianness pf); reflexivity | apply u32_bytes_roundtrip; exact Hid].
Qed.

Lemma builder_encryption_key_id_witness :
  exists f md,
    Builder.file_encryption_
      (fst (snd (Builder.step platform0 (Builder.encryption_id AES_GCM_V1 K1 3000000000)
                  (Builder.new platform0, empty_heap)))) = Some f
    /\ option_map ep_key_metadata
         (objs (snd (snd (Builder.step platform0 (Builder.encryption_id AES_GCM_V1 K1 3000000000)
                           (Builder.new platform0, empty_heap)))) !! footer_encryption_ f)
       = Some md
    /\ u32_of_bytes LittleEndian md = Some 3000000000%Z.
Proof.
  destruct (builder_encryption_key_id platform0 (Builder.new platform0) empty_heap AES_GCM_V1 K1
              3000000000
              (fst (snd (Builder.step platform0 (Builder.encryption_id AES_GCM_V1 K1 3000000000)
                          (Builder.new platform0, empty_heap))))
              (snd (snd (Builder.step platform0 (Builder.encryption_id AES_GCM_V1 K1 3000000000)
                          (Builder.new platform0, empty_heap)))))
    as [f [md [H1 [H2 [_ H4]]]]];
    [lia | reflexivity |].
  exists f, md. split; [exact H1 | split; [exact H2 |]].
  apply H4. discriminate.
Defined.

(** ** FileDecryptionProperties: setting and reading keys *)

(** [SetColumnKey(paths, key)] then [GetColumnKey] with empty key metadata
    on the dotted path returns the key; every other lookup, the footer key
    and the AAD are unchanged, and [SetAad] changes no key lookup. *)
Theorem SetColumnKeyPaths_roundtrip (mode : BuildMode) (d : FileDecryptionProperties)
  (paths : list string) (key : string) (d' : FileDecryptionProperties) :
  SetColumnKeyPaths mode d paths key = Ok d' ->
  GetColumnKey d' (ToDotString paths) EmptyString = Ok key
  /\ (forall p md, p <> ToDotString paths \/ md <> EmptyString ->
        GetColumnKey d' p md = GetColumnKey d p md)
  /\ (forall md, GetFooterKey d' md = GetFooterKey d md)
  /\ GetAad d' = GetAad d
  /\ (forall aad p md, GetColumnKey (SetAad d' aad) p md = GetColumnKey d' p md
                       /\ GetFooterKey (SetAad d' aad) md = GetFooterKey d' md
                       /\ GetAad (SetAad d' aad) = aad).
Proof.
  unfold SetColumnKeyPaths. intros Hs.
  destruct (DCHECK mode (valid_key_length key)); simpl in Hs; try discriminate.
  injection Hs as <-.
  unfold GetColumnKey, GetFooterKey, GetAad, SetAad; simpl.
  split; [rewrite lookup_insert_eq; reflexivity|].
  split; [|repeat split; reflexivity].
  intros p md [Hp | Hmd].
  - destruct (is_empty md); [|reflexivity].
    rewrite lookup_insert_ne by congruence. reflexivity.
  - destruct (is_empty md) eqn:E; [|reflexivity].
    apply is_empty_true in E. contradiction.
Qed.

Lemma SetColumnKeyPaths_roundtrip_witness :
  exists d', SetColumnKeyPaths Release (FileDecryptionProperties_of_retriever None)
               ["a"; "b"] K1 = Ok d'
             /\ GetColumnKey d' "a.b" EmptyString = Ok K1.
Proof.
  eexists. split; [reflexivity|].
  apply (SetColumnKeyPaths_roundtrip Release (FileDecryptionProperties_of_retriever None)
           ["a"; "b"] K1); reflexivity.
Defined.

(** Writer and reader agree on a listed column of a non-uniform policy: the
    key material the writer gets carries the column's own key and key
    metadata, and a reader that registered that key under the column's
    dotted path (for empty key metadata), or whose retriever maps the
    metadata to that key, gets it back from [GetColumnKey]. *)
Theorem writer_reader_column_key (h : Heap) (f : FileEncryptionProperties) (path : string)
  (col : ColumnEncryptionProperties) (p : nat) (h' : Heap) (ep : EncryptionProperties) :
  uniform_encryption_ f = false ->
  find_column f path = Some col ->
  GetColumnEncryptionProperties h f path = Ok (Some p, h') ->
  objs h' !! p = Some ep ->
  ep_key ep = key_ col /\ ep_key_metadata ep = key_metadata_ col
  /\ (forall mode d paths d', key_metadata_ col = EmptyString -> ToDotString paths = path ->
        SetColumnKeyPaths mode d paths (key_ col) = Ok d' ->
        GetColumnKey d' path (ep_key_metadata ep) = Ok (ep_key ep))
  /\ (forall d r, key_metadata_ col <> EmptyString -> key_retriever_ d = Some r ->
        r (key_metadata_ col) = Ok (key_ col) ->
        GetColumnKey d path (ep_key_metadata ep) = Ok (ep_key ep)).
Proof.
  intros Hu Hc Hg Hp. unfold GetColumnEncryptionProperties in Hg.
  rewrite Hu, Hc in Hg.
  destruct (objs h !! footer_encryption_ f) as [fe|]; [|discriminate].
  simpl in Hg. injection Hg as <- <-. simpl in Hp.
  rewrite lookup_insert_eq in Hp. injection Hp as <-. simpl.
  split; [reflexivity | split; [reflexivity|]]. split.
  - intros mode d paths d' Hmd Hpath Hs. rewrite Hmd, <- Hpath.
    apply (SetColumnKeyPaths_roundtrip mode d paths (key_ col) d' Hs).
  - intros d r Hmd Hr Hk. unfold GetColumnKey.
    destruct (is_empty (key_metadata_ col)) eqn:E.
    + apply is_empty_true in E. contradiction.
    + rewrite Hr. exact Hk.
Qed.

Lemma writer_reader_column_key_witness :
  exists p h' ep,
    GetColumnEncryptionProperties (snd (setup_of K1 [keyed_column "a" K2] false))
      (snd (fst (setup_of K1 [keyed_column "a" K2] false))) "a" = Ok (Some p, h')
    /\ objs h' !! p = Some ep
    /\ ep_key ep = K2.
Proof.
  do 3 eexists. split; [reflexivity|]. split; [reflexivity|].
  refine (proj1 (writer_reader_column_key
                   (snd (setup_of K1 [keyed_column "a" K2] false))
                   (snd (fst (setup_of K1 [keyed_column "a" K2] false))) "a"
                   (keyed_column "a" K2) _ _ _ _ _ _ _));
    reflexivity.
Defined.

(** ** SetupAad updates the shared footer object *)

(** [SetupAad(aad)] changes the footer object in place and nothing else on
    the heap; since the footer is shared, every non-null key material the
    policy hands out afterwards, whether the footer itself or a column's
    fresh copy, carries the new AAD, with the footer's algorithm. *)
Theorem SetupAad_shared (h : Heap) (f : FileEncryptionProperties) (aad : string) (h1 : Heap) :
  SetupAad h f aad = Ok h1 ->
  next_ptr h1 = next_ptr h
  /\ (forall q, q <> footer_encryption_ f -> objs h1 !! q = objs h !! q)
  /\ (forall path p h2 ep, GetColumnEncryptionProperties h1 f path = Ok (Some p, h2) ->
        objs h2 !! p = Some ep ->
        ep_aad ep = aad
        /\ option_map algorithm (objs h !! footer_encryption_ f) = Some (algorithm ep)).
Proof.
  unfold SetupAad. intros Hs.
  destruct (objs h !! footer_encryption_ f) as [fe|] eqn:Efe; [|discriminate].
  injection Hs as <-. simpl. split; [reflexivity|]. split.
  { intros q Hq. apply lookup_insert_ne. congruence. }
  intros path p h2 ep Hg Hp. unfold GetColumnEncryptionProperties in Hg. simpl in Hg.
  rewrite lookup_insert_eq in Hg.
  destruct (uniform_encryption_ f).
  - injection Hg as <- <-. simpl in Hp. rewrite lookup_insert_eq in Hp.
    injection Hp as <-. auto.
  - destruct (find_column f path) as [col|].
    + simpl in Hg. injection Hg as <- <-. simpl in Hp.
      rewrite lookup_insert_eq in Hp. injection Hp as <-. auto.
    + destruct (encrypt_the_rest_ f); [|discriminate].
      injection Hg as <- <-. simpl in Hp. rewrite lookup_insert_eq in Hp.
      injection Hp as <-. auto.
Qed.

Lemma SetupAad_shared_witness :
  exists h1 p h2 ep,
    SetupAad (snd (setup_of K1 [keyed_column "a" K2] false))
      (snd (fst (setup_of K1 [keyed_column "a" K2] false))) "file-aad" = Ok h1
    /\ GetColumnEncryptionProperties h1 (snd (fst (setup_of K1 [keyed_column "a" K2] false)))
         "a" = Ok (Some p, h2)
    /\ objs h2 !! p = Some ep
    /\ ep_aad ep = "file-aad".
Proof.
  do 4 eexists. split; [reflexivity|]. split; [reflexivity|]. split; [reflexivity|].
  refine (proj1 (proj2 (proj2 (SetupAad_shared
            (snd (setup_of K1 [keyed_column "a" K2] false))
            (snd (fst (setup_of K1 [keyed_column "a" K2] false))) "file-aad" _ _))
            "a" _ _ _ _ _)); reflexivity.
Defined.

(** ** SetupColumns: state after a failed call, and repeated calls *)

(** [SetupColumns] assigns [columns_] and [encrypt_the_rest_] before it
    checks anything, so a call that throws still leaves the new column list
    and flag installed, with the footer and the uniform flag untouched. *)
Theorem SetupColumns_throw_installs (h : Heap) (f : FileEncryptionProperties)
  (cols : list ColumnEncryptionProperties) (rest : bool) (e : Exn)
  (f' : FileEncryptionProperties) :
  SetupColumns h f cols rest = (Throw e, f') ->
  columns_ f' = cols /\ encrypt_the_rest_ f' = rest
  /\ uniform_encryption_ f' = uniform_encryption_ f
  /\ footer_encryption_ f' = footer_encryption_ f.
Proof.
  unfold SetupColumns. simpl.
  destruct (objs h !! footer_encryption_ f) as [fe|]; [|discriminate].
  destruct (negb (is_empty (ep_key fe))); [discriminate|].
  destruct rest.
  - intros Hs. injection Hs as _ <-. simpl. auto.
  - destruct (null_footer_scan cols true) as [[|]| |]; intros Hs; try discriminate;
      injection Hs as _ <-; simpl; auto.
Qed.

Lemma SetupColumns_throw_installs_witness :
  exists e f',
    SetupColumns (snd (policy_of EmptyString)) (fst (policy_of EmptyString))
      [mkColumnEncryptionProperties false "a"] false = (Throw e, f')
    /\ columns_ f' = [mkColumnEncryptionProperties false "a"].
Proof.
  do 2 eexists. split; [reflexivity|].
  refine (proj1 (SetupColumns_throw_installs (snd (policy_of EmptyString))
                   (fst (policy_of EmptyString)) [mkColumnEncryptionProperties false "a"]
                   false _ _ _)).
  reflexivity.
Defined.

(** A policy with an empty footer key that rejects [encrypt_the_rest] keeps
    the flag it rejected: afterwards every unlisted path is described as
    encrypted with the footer key and gets the footer's key material, whose
    key is empty. *)
Theorem rejected_rest_still_applies (h : Heap) (f : FileEncryptionProperties)
  (cols : list ColumnEncryptionProperties) (fe : EncryptionProperties) (path : string) :
  objs h !! footer_encryption_ f = Some fe ->
  ep_key fe = EmptyString ->
  uniform_encryption_ f = false ->
  find (fun col => String.eqb (path_ col) path) cols = None ->
  let (r, f') := SetupColumns h f cols true in
  r = Throw (ParquetException "Encrypt the rest with null footer key")
  /\ GetColumnCryptoMetaData f' path = mkColumnEncryptionProperties true path
  /\ GetColumnEncryptionProperties h f' path = Ok (Some (footer_encryption_ f), h)
  /\ option_map ep_key (objs h !! footer_encryption_ f') = Some EmptyString.
Proof.
  intros Hfe Hk Hu Hfind. unfold SetupColumns. simpl. rewrite Hfe. simpl. rewrite Hk. simpl.
  unfold GetColumnCryptoMetaData, GetColumnEncryptionProperties, find_column. simpl.
  rewrite Hu, Hfind, Hfe. simpl. rewrite Hk. auto.
Qed.

Lemma rejected_rest_still_applies_witness :
  objs (snd (policy_of EmptyString)) !! footer_encryption_ (fst (policy_of EmptyString))
    = Some {| algorithm := AES_GCM_V1; ep_key := EmptyString; ep_key_metadata := EmptyString;
              ep_aad := EmptyString |}
  /\ GetColumnEncryptionProperties (snd (policy_of EmptyString))
       (snd (SetupColumns (snd (policy_of EmptyString)) (fst (policy_of EmptyString))
               [keyed_column "a" K2] true)) "b"
     = Ok (Some (footer_encryption_ (fst (policy_of EmptyString))), snd (policy_of EmptyString)).
Proof.
  assert (Hfe : objs (snd (policy_of EmptyString)) !! footer_encryption_ (fst (policy_of EmptyString))
    = Some {| algorithm := AES_GCM_V1; ep_key := EmptyString; ep_key_metadata := EmptyString;
              ep_aad := EmptyString |}) by reflexivity.
  split; [exact Hfe|].
  pose proof (rejected_rest_still_applies (snd (policy_of EmptyString)) (fst (policy_of EmptyString))
                [keyed_column "a" K2] _ "b" Hfe eq_refl eq_refl eq_refl) as H.
  destruct (SetupColumns _ _ _ true) as [r f'].
  destruct H as [_ [_ [H _]]]. exact H.
Defined.

(** Calling [SetupColumns] again replaces the first call entirely: the
    outcome and the object's state are those of the second call alone. *)
Theorem SetupColumns_last_call_wins (h : Heap) (f : FileEncryptionProperties)
  (c1 c2 : list ColumnEncryptionProperties) (r1 r2 : bool) :
  SetupColumns h (snd (SetupColumns h f c1 r1)) c2 r2 = SetupColumns h f c2 r2.
Proof.
  assert (Hdep : forall f1, footer_encryption_ f1 = footer_encryption_ f ->
            uniform_encryption_ f1 = uniform_encryption_ f
            \/ (exists fe, objs h !! footer_encryption_ f = Some fe
                           /\ is_empty (ep_key fe) = false) ->
            SetupColumns h f1 c2 r2 = SetupColumns h f c2 r2).
  { intros f1 Hp Hu. unfold SetupColumns, set_columns, set_uniform. simpl. rewrite Hp.
    destruct Hu as [Hu | [fe [Efe Ek]]].
    - rewrite Hu. reflexivity.
    - rewrite Efe, Ek. reflexivity. }
  apply Hdep.
  - unfold SetupColumns. simpl.
    destruct (objs h !! footer_encryption_ f); [|reflexivity].
    destruct (negb (is_empty (ep_key e))); [reflexivity|].
    destruct r1; [reflexivity|]. destruct (null_footer_scan c1 true) as [[|]| |]; reflexivity.
  - unfold SetupColumns. simpl.
    destruct (objs h !! footer_encryption_ f) as [fe|] eqn:Efe; [|left; reflexivity].
    destruct (is_empty (ep_key fe)) eqn:Ek; simpl.
    + left. destruct r1; [reflexivity|].
      destruct (null_footer_scan c1 true) as [[|]| |]; reflexivity.
    + right. exists fe. auto.
Qed.

(** ** ColumnEncryptionProperties: what [SetEncryptionKey] never produces *)

(** The state invariant of a column spec built by
    [ColumnEncryptionProperties(encrypt, path)]: it is encrypted with the
    footer key exactly when it is encrypted and has no key, it has key
    metadata only with a key, and an unencrypted column has no key. *)
Definition cep_inv (c : ColumnEncryptionProperties) : Prop :=
  encrypted_with_footer_key_ c = encrypt_ c && is_empty (key_ c)
  /\ (key_ c = EmptyString -> key_metadata_ c = EmptyString)
  /\ (encrypt_ c = false -> key_ c = EmptyString).

Lemma SetEncryptionKey_preserves (c : ColumnEncryptionProperties) (key key_metadata : string) :
  cep_inv c ->
  cep_inv (snd (SetEncryptionKey c key key_metadata))
  /\ encrypt_ (snd (SetEncryptionKey c key key_metadata)) = encrypt_ c
  /\ path_ (snd (SetEncryptionKey c key key_metadata)) = path_ c.
Proof.
  intros Hinv. unfold SetEncryptionKey.
  destruct (encrypt_ c) eqn:Ee; simpl; [|rewrite Ee; auto].
  destruct (is_empty key) eqn:Ek; simpl; [rewrite Ee; auto|].
  unfold cep_inv. simpl. rewrite Ek. repeat split; auto.
  - intros ->. discriminate.
  - discriminate.
Qed.

(** Any sequence of [SetEncryptionKey(key, key_metadata)] calls on a
    constructed column spec, each one succeeding or throwing, keeps the
    invariant and never changes [encrypted()] or [path()]. *)
Theorem SetEncryptionKey_calls_invariant (encrypt : bool) (path : string)
  (calls : list (string * string)) :
  let c := fold_left (fun c km => snd (SetEncryptionKey c (fst km) (snd km))) calls
             (mkColumnEncryptionProperties encrypt path) in
  cep_inv c /\ encrypt_ c = encrypt /\ path_ c = path.
Proof.
  cbv zeta.
  assert (Hgen : forall c0, cep_inv c0 ->
    cep_inv (fold_left (fun c km => snd (SetEncryptionKey c (fst km) (snd km))) calls c0)
    /\ encrypt_ (fold_left (fun c km => snd (SetEncryptionKey c (fst km) (snd km))) calls c0)
       = encrypt_ c0
    /\ path_ (fold_left (fun c km => snd (SetEncryptionKey c (fst km) (snd km))) calls c0)
       = path_ c0).
  { induction calls as [|[k md] calls IH]; intros c0 Hinv; [auto|].
    cbn [fold_left fst snd].
    destruct (SetEncryptionKey_preserves c0 k md Hinv) as [H1 [H2 H3]].
    destruct (IH _ H1) as [H4 [H5 H6]]. rewrite H5, H6, H2, H3. auto. }
  apply Hgen. unfold cep_inv, mkColumnEncryptionProperties. simpl.
  rewrite andb_true_r. auto.
Qed.

(** ** ReaderProperties: which stream [GetStream] creates *)

(** After any sequence of calls on a [ReaderProperties(pool)],
    [GetStream] creates a buffered stream, with the last buffer size set
    (0 if none), exactly when the last of [enable_buffered_stream] and
    [disable_buffered_stream] called was the former; none of them is
    needed for an in-memory stream, the default. *)
Theorem GetStream_after_calls (pool : nat) (ops : list ReaderProperties.Op)
  (source : nat) (start num_bytes : Z) :
  ReaderProperties.GetStream (ReaderProperties.run (ReaderProperties.new pool) ops)
    source start num_bytes
  = if ReaderProperties.last_buffering ops false
    then ReaderProperties.BufferedInputStream pool (ReaderProperties.last_buffer_size ops 0)
           source start num_bytes
    else ReaderProperties.InMemoryInputStream source start num_bytes.
Proof.
  assert (Hgen : forall r,
    ReaderProperties.pool_ (ReaderProperties.run r ops) = ReaderProperties.pool_ r
    /\ ReaderProperties.buffered_stream_enabled_ (ReaderProperties.run r ops)
       = ReaderProperties.last_buffering ops (ReaderProperties.buffered_stream_enabled_ r)
    /\ ReaderProperties.buffer_size_ (ReaderProperties.run r ops)
       = ReaderProperties.last_buffer_size ops (ReaderProperties.buffer_size_ r)).
  { induction ops as [|op ops IH]; intros r; [auto|].
    unfold ReaderProperties.run in *. simpl.
    destruct (IH (ReaderProperties.step r op)) as [H1 [H2 H3]].
    rewrite H1, H2, H3. destruct op; auto. }
  destruct (Hgen (ReaderProperties.new pool)) as [H1 [H2 H3]].
  unfold ReaderProperties.GetStream. rewrite H1, H2, H3. reflexivity.
Qed.

(** ** Builder: which call decides a column property *)

(** Every case of [Builder.step]: the branches on the encoding, on the path
    named, on the outcome of a constructor and on [file_encryption_]. *)
Ltac builder_step_cases :=
  cbn -[lookup insert];
  repeat match goal with
  | |- context [if Builder.is_dictionary_encoding ?e then _ else _] =>
      destruct (Builder.is_dictionary_encoding e)
  | |- context [String.eqb ?p ?q] => destruct (String.eqb_spec p q) as [<- | ?]
  | |- context [match ?x with Ok _ => _ | Throw _ => _ | Abort => _ end] =>
      destruct x as [[? ?]| |]
  | |- context [match Builder.file_encryption_ ?b with _ => _ end] =>
      destruct (Builder.file_encryption_ b)
  | |- context [let (_, _) := ?x in _] => destruct x
  | |- context [Builder.install ?b ?h ?r] =>
      unfold Builder.install; destruct r as [[? ?]| |]
  end; cbn -[lookup insert];
  rewrite ?lookup_insert_eq, ?lookup_insert_ne by congruence; repeat split; reflexivity.

Lemma step_column_settings (pf : Platform) (op : Builder.Op) (b : Builder.t) (h : Heap)
  (path : string) :
  let b' := fst (snd (Builder.step pf op (b, h))) in
  let d := Builder.default_column_properties_ b in
  let d' := Builder.default_column_properties_ b' in
  dictionary_enabled_ d' = default (dictionary_enabled_ d) (dictionary_global op)
  /\ Builder.dictionary_enabled_ b' !! path
     = default (Builder.dictionary_enabled_ b !! path) (dictionary_at path op)
  /\ statistics_enabled_ d' = default (statistics_enabled_ d) (statistics_global op)
  /\ Builder.statistics_enabled_ b' !! path
     = default (Builder.statistics_enabled_ b !! path) (statistics_at path op)
  /\ codec_ d' = default (codec_ d) (compression_global op)
  /\ Builder.codecs_ b' !! path = default (Builder.codecs_ b !! path) (compression_at path op)
  /\ encoding_ d' = default (encoding_ d) (encoding_global op)
  /\ Builder.encodings_ b' !! path = default (Builder.encodings_ b !! path) (encoding_at path op)
  /\ encryption_ d' = encryption_ d.
Proof.
  destruct op; builder_step_cases.
Qed.

Lemma run_column_settings (pf : Platform) (ops : list Builder.Op) (st : Builder.t * Heap)
  (path : string) :
  let b := fst st in
  let b' := fst (Builder.run pf ops st) in
  let d := Builder.default_column_properties_ b in
  let d' := Builder.default_column_properties_ b' in
  dictionary_enabled_ d' = last_setting dictionary_global ops (dictionary_enabled_ d)
  /\ Builder.dictionary_enabled_ b' !! path
     = last_setting (dictionary_at path) ops (Builder.dictionary_enabled_ b !! path)
  /\ statistics_enabled_ d' = last_setting statistics_global ops (statistics_enabled_ d)
  /\ Builder.statistics_enabled_ b' !! path
     = last_setting (statistics_at path) ops (Builder.statistics_enabled_ b !! path)
  /\ codec_ d' = last_setting compression_global ops (codec_ d)
  /\ Builder.codecs_ b' !! path
     = last_setting (compression_at path) ops (Builder.codecs_ b !! path)
  /\ encoding_ d' = last_setting encoding_global ops (encoding_ d)
  /\ Builder.encodings_ b' !! path
     = last_setting (encoding_at path) ops (Builder.encodings_ b !! path).
Proof.
  revert st. induction ops as [|op ops IH]; intros [b h]; cbv zeta; [repeat split; reflexivity|].
  cbn [Builder.run last_setting fst].
  destruct (step_column_settings pf op b h path)
    as [E1 [E2 [E3 [E4 [E5 [E6 [E7 [E8 _]]]]]]]].
  destruct (IH (snd (Builder.step pf op (b, h))))
    as [F1 [F2 [F3 [F4 [F5 [F6 [F7 F8]]]]]]].
  rewrite F1, F2, F3, F4, F5, F6, F7, F8, E1, E2, E3, E4, E5, E6, E7, E8.
  repeat split; reflexivity.
Qed.

(** After any sequence of builder calls, each of a column's dictionary,
    statistics, compression and encoding settings in the built properties is
    the one set by the last call naming that column, if any; otherwise the
    one set by the last call for all columns, and otherwise the default.  A
    per-column call thus wins over every later call for all columns, and a
    rejected dictionary encoding counts as no call. *)
Theorem builder_last_call_decides (pf : Platform) (ops : list Builder.Op) (h : Heap)
  (path : string) :
  let w := fst (Builder.build (fst (Builder.run pf ops (Builder.new pf, h)))) in
  WriterProperties.dictionary_enabled w path
  = default (last_setting dictionary_global ops DEFAULT_IS_DICTIONARY_ENABLED)
            (last_setting (dictionary_at path) ops None)
  /\ WriterProperties.statistics_enabled w path
     = default (last_setting statistics_global ops DEFAULT_ARE_STATISTICS_ENABLED)
               (last_setting (statistics_at path) ops None)
  /\ WriterProperties.compression w path
     = default (last_setting compression_global ops DEFAULT_COMPRESSION_TYPE)
               (last_setting (compression_at path) ops None)
  /\ WriterProperties.encoding w path
     = default (last_setting encoding_global ops DEFAULT_ENCODING)
               (last_setting (encoding_at path) ops None).
Proof.
  cbv zeta.
  unfold WriterProperties.dictionary_enabled, WriterProperties.statistics_enabled,
    WriterProperties.compression, WriterProperties.encoding.
  rewrite build_cp. cbn [encoding_ codec_ dictionary_enabled_ statistics_enabled_].
  destruct (run_column_settings pf ops (Builder.new pf, h) path)
    as [F1 [F2 [F3 [F4 [F5 [F6 [F7 F8]]]]]]].
  cbn [fst] in *.
  rewrite F1, F2, F3, F4, F5, F6, F7, F8. repeat split; reflexivity.
Qed.

Lemma step_scalar_settings (pf : Platform) (op : Builder.Op) (b : Builder.t) (h : Heap) :
  let b' := fst (snd (Builder.step pf op (b, h))) in
  Builder.pool_ b' = default (Builder.pool_ b) (pool_set op)
  /\ Builder.dictionary_pagesize_limit_ b'
     = default (Builder.dictionary_pagesize_limit_ b) (dictionary_pagesize_limit_set op)
  /\ Builder.write_batch_size_ b' = default (Builder.write_batch_size_ b) (write_batch_size_set op)
  /\ Builder.max_row_group_length_ b'
     = default (Builder.max_row_group_length_ b) (max_row_group_length_set op)
  /\ Builder.pagesize_ b' = default (Builder.pagesize_ b) (data_pagesize_set op)
  /\ Builder.version_ b' = default (Builder.version_ b) (version_set op)
  /\ Builder.created_by_ b' = default (Builder.created_by_ b) (created_by_set op)
  /\ max_stats_size_ (Builder.default_column_properties_ b')
     = default (max_stats_size_ (Builder.default_column_properties_ b))
               (max_statistics_size_set op).
Proof.
  destruct op; builder_step_cases.
Qed.

Lemma run_scalar_settings (pf : Platform) (ops : list Builder.Op) (st : Builder.t * Heap) :
  let b := fst st in
  let b' := fst (Builder.run pf ops st) in
  Builder.pool_ b' = last_setting pool_set ops (Builder.pool_ b)
  /\ Builder.dictionary_pagesize_limit_ b'
     = last_setting dictionary_pagesize_limit_set ops (Builder.dictionary_pagesize_limit_ b)
  /\ Builder.write_batch_size_ b' = last_setting write_batch_size_set ops (Builder.write_batch_size_ b)
  /\ Builder.max_row_group_length_ b'
     = last_setting max_row_group_length_set ops (Builder.max_row_group_length_ b)
  /\ Builder.pagesize_ b' = last_setting data_pagesize_set ops (Builder.pagesize_ b)
  /\ Builder.version_ b' = last_setting version_set ops (Builder.version_ b)
  /\ Builder.created_by_ b' = last_setting created_by_set ops (Builder.created_by_ b)
  /\ max_stats_size_ (Builder.default_column_properties_ b')
     = last_setting max_statistics_size_set ops
         (max_stats_size_ (Builder.default_column_properties_ b)).
Proof.
  revert st. induction ops as [|op ops IH]; intros [b h]; cbv zeta; [repeat split; reflexivity|].
  cbn [Builder.run last_setting fst].
  destruct (step_scalar_settings pf op b h) as [E1 [E2 [E3 [E4 [E5 [E6 [E7 E8]]]]]]].
  destruct (IH (snd (Builder.step pf op (b, h)))) as [F1 [F2 [F3 [F4 [F5 [F6 [F7 F8]]]]]]].
  rewrite F1, F2, F3, F4, F5, F6, F7, F8, E1, E2, E3, E4, E5, E6, E7, E8.
  repeat split; reflexivity.
Qed.

(** After any sequence of builder calls, each scalar setting of the built
    properties (memory pool, dictionary page size limit, write batch size,
    maximum row group length, data page size, format version, created-by
    string, and the maximum statistics size, the same for every column) is
    the value of the last call setting it, or its default; no other call,
    failed or not, changes it. *)
Theorem builder_scalar_last_call (pf : Platform) (ops : list Builder.Op) (h : Heap)
  (path : string) :
  let w := fst (Builder.build (fst (Builder.run pf ops (Builder.new pf, h)))) in
  WriterProperties.pool_ w = last_setting pool_set ops (default_memory_pool pf)
  /\ WriterProperties.dictionary_pagesize_limit_ w
     = last_setting dictionary_pagesize_limit_set ops DEFAULT_DICTIONARY_PAGE_SIZE_LIMIT
  /\ WriterProperties.write_batch_size_ w
     = last_setting write_batch_size_set ops DEFAULT_WRITE_BATCH_SIZE
  /\ WriterProperties.max_row_group_length_ w
     = last_setting max_row_group_length_set ops DEFAULT_MAX_ROW_GROUP_LENGTH
  /\ WriterProperties.pagesize_ w = last_setting data_pagesize_set ops DEFAULT_PAGE_SIZE
  /\ WriterProperties.parquet_version_ w = last_setting version_set ops DEFAULT_WRITER_VERSION
  /\ WriterProperties.parquet_created_by_ w
     = last_setting created_by_set ops (DEFAULT_CREATED_BY pf)
  /\ WriterProperties.max_statistics_size w path
     = last_setting max_statistics_size_set ops DEFAULT_MAX_STATISTICS_SIZE.
Proof.
  cbv zeta. unfold WriterProperties.max_statistics_size. rewrite build_cp.
  destruct (run_scalar_settings pf ops (Builder.new pf, h))
    as [F1 [F2 [F3 [F4 [F5 [F6 [F7 F8]]]]]]].
  cbn [max_stats_size_].
  repeat split; [exact F1 | exact F2 | exact F3 | exact F4 | exact F5 | exact F6 | exact F7
                | exact F8].
Qed.

(** ** Builder: [encryption(...)] starts a new policy *)

(** A successful [encryption(algorithm, key, key_metadata)] call replaces the
    builder's file encryption by a new one whose footer is a fresh object on
    the heap: any [column_encryption] set up before is dropped (no columns
    listed, uniform exactly when the key is non-empty, [encrypt_the_rest_]
    the indeterminate value of an uninitialised member), and no existing
    object is changed. *)
Theorem builder_encryption_replaces (pf : Platform) (b : Builder.t) (h : Heap)
  (alg : EncryptionType) (key key_metadata : string) (b' : Builder.t) (h' : Heap) :
  Builder.step pf (Builder.encryption_md alg key key_metadata) (b, h) = (Ok tt, (b', h')) ->
  exists f, Builder.file_encryption_ b' = Some f
    /\ columns_ f = [] /\ uniform_encryption_ f = negb (is_empty key)
    /\ encrypt_the_rest_ f = indeterminate_bool pf
    /\ footer_encryption_ f = next_ptr h
    /\ objs h' !! footer_encryption_ f
       = Some {| algorithm := alg; ep_key := key; ep_key_metadata := key_metadata;
                 ep_aad := EmptyString |}
    /\ (forall q, q <> next_ptr h -> objs h' !! q = objs h !! q)
    /\ Builder.default_column_properties_ b' = Builder.default_column_properties_ b.
Proof.
  intros Hs. cbn [Builder.step] in Hs. unfold Builder.install in Hs.
  destruct (FileEncryptionProperties_new _ _ _ _ _ _) as [[f h1]| |] eqn:En;
    try discriminate.
  injection Hs as <- <-.
  destruct (FileEncryptionProperties_new_footer _ _ _ _ _ _ _ _ En) as [Hfe [Hp [Hu ->]]].
  exists f. split; [reflexivity|].
  unfold FileEncryptionProperties_new in En.
  destruct (DCHECK _ _); simpl in En; try discriminate.
  destruct (if negb (is_empty key_metadata) then _ else _); simpl in En; try discriminate.
  injection En as <-. simpl in *.
  repeat split; try reflexivity; try exact Hfe.
  intros q Hq. apply lookup_insert_ne. congruence.
Qed.

Lemma builder_encryption_replaces_witness :
  exists b' h',
    Builder.step platform0 (Builder.encryption_md AES_GCM_CTR_V1 K2 "kid")
      (fst (Builder.run platform0
              [Builder.encryption_md AES_GCM_V1 K1 EmptyString;
               Builder.column_encryption [keyed_column "a" K2] true]
              (Builder.new platform0, empty_heap)),
       snd (Builder.run platform0
              [Builder.encryption_md AES_GCM_V1 K1 EmptyString;
               Builder.column_encryption [keyed_column "a" K2] true]
              (Builder.new platform0, empty_heap)))
    = (Ok tt, (b', h'))
    /\ exists f, Builder.file_encryption_ b' = Some f /\ columns_ f = [].
Proof.
  do 2 eexists. split; [reflexivity|].
  destruct (builder_encryption_replaces platform0
              (fst (Builder.run platform0
                      [Builder.encryption_md AES_GCM_V1 K1 EmptyString;
                       Builder.column_encryption [keyed_column "a" K2] true]
                      (Builder.new platform0, empty_heap)))
              (snd (Builder.run platform0
                      [Builder.encryption_md AES_GCM_V1 K1 EmptyString;
                       Builder.column_encryption [keyed_column "a" K2] true]
                      (Builder.new platform0, empty_heap)))
              AES_GCM_CTR_V1 K2 "kid" _ _ eq_refl)
    as [f [Hf [Hc _]]].
  exists f. split; [exact Hf | exact Hc].
Defined.




